(** * aistack: session message orchestration, shallow embedding

    The development follows the Python sources:
    - [config.py]            : the [FormData] schema,
    - [components/state.py]  : the session state ([State]),
    - [components/chat.py]   : [stream_response], [return_response],
    - [pages/step1.py]       : the chat page,
    - [pages/step2.py]       : the ticket (extraction) page.

    Python objects that are mutated in place (the agent's signals, the
    session's [defaultdict] of message lists) are modelled by explicit
    state passing. *)

From Stdlib Require Import ZArith Ascii String.
From stdpp Require Import base decidable option list strings gmap fin_maps.

Local Open Scope string_scope.
Local Open Scope list_scope.

(** ** Python strings *)

Module Py.

(** The line feed character, written [\n] in the sources. *)
Definition nl : string := String (ascii_of_nat 10) EmptyString.

(** [str.upper] on one character (ASCII letters; the role names of the
    sources are ASCII). *)
Definition upper_ascii (c : ascii) : ascii :=
  let n := nat_of_ascii c in
  if (97 <=? n)%nat && (n <=? 122)%nat then ascii_of_nat (n - 32) else c.

(** [str.upper]. *)
Fixpoint upper (s : string) : string :=
  match s with
  | EmptyString => EmptyString
  | String c s' => String (upper_ascii c) (upper s')
  end.

(** [sep.join(parts)]. *)
Fixpoint join (sep : string) (parts : list string) : string :=
  match parts with
  | [] => EmptyString
  | [p] => p
  | p :: rest => p +:+ sep +:+ join sep rest
  end.

(** Outcome of awaiting a coroutine: it returns a value, raises an
    [Exception], or is cancelled ([asyncio.CancelledError], which is a
    [BaseException] and is not caught by [except Exception]). *)
Inductive outcome (R : Type) : Type :=
  | Returned (r : R)
  | Raised (e : string)
  | Cancelled.
Arguments Returned {R} r.
Arguments Raised {R} e.
Arguments Cancelled {R}.


Definition is_returned {R} (o : outcome R) : bool :=
  match o with Returned _ => true | _ => false end.

End Py.

(** ** Messages (llmling_agent's [ChatMessage] and [ToolCallInfo])

    Only the fields the sources read are kept, plus the message id, which
    takes part in the dataclass equality used by [msg not in messages].
    Durations and costs are floats in the library.  Each is kept by an
    integer that stands for the float, 0 for a zero float and for no other:
    the sources test them for truth, compare them, and display them through
    format functions that are parameters here. *)

Inductive role := user | assistant | system.

Definition role_str (r : role) : string :=
  match r with
  | user => "user"
  | assistant => "assistant"
  | system => "system"
  end.

Record ToolCallInfo := {
  tool_name : string;
  args : gmap string string;
  result : option string;
  error : option string;
  timing : option Z
}.

Record CostInfo := {
  total_cost : Z;
  token_usage : gmap string nat
}.

Record ChatMessage := {
  content : string;
  msg_role : role;
  tool_calls : list ToolCallInfo;
  model : option string;
  cost_info : option CostInfo;
  response_time : option Z;
  message_id : string
}.

#[global] Instance role_eq_dec : EqDecision role.
Proof. solve_decision. Defined.
#[global] Instance ToolCallInfo_eq_dec : EqDecision ToolCallInfo.
Proof. solve_decision. Defined.
#[global] Instance CostInfo_eq_dec : EqDecision CostInfo.
Proof. solve_decision. Defined.
#[global] Instance ChatMessage_eq_dec : EqDecision ChatMessage.
Proof. solve_decision. Defined.

(** [ChatMessage(content=..., role=...)]: every other field takes its
    default; the id is the fresh one drawn by the constructor. *)
Definition mkChatMessage (id : string) (c : string) (r : role) : ChatMessage :=
  {| content := c; msg_role := r; tool_calls := []; model := None;
     cost_info := None; response_time := None; message_id := id |}.

(** ** Signals and agents

    A signal of the agent library holds the callbacks connected to it, in
    connection order.  A callback is a Python function object; the closures
    the sources connect ([collect_message], [render]) are created afresh by
    each call and compare by identity, so a callback is modelled by the
    identity of its closure object. *)

Module Signal.

Definition t := list nat.

(** [signal.connect(cb)]: duplicates are allowed. *)
Definition connect (cb : nat) (s : t) : t := s ++ [cb].

(** [signal.disconnect(cb)]: removes the first connection of [cb]; a
    callback that is not connected is ignored. *)
Fixpoint disconnect (cb : nat) (s : t) : t :=
  match s with
  | [] => []
  | c :: s' => if decide (c = cb) then s' else c :: disconnect cb s'
  end.

End Signal.

(** The part of an [Agent] object the orchestration code touches. *)
Record Agent := {
  name : string;
  message_sent : Signal.t;
  message_received : Signal.t;
  tool_used : Signal.t
}.

(** What the agent does while a call against it is awaited: the signals it
    emits and, for a stream, the chunks it yields, in order. *)
Inductive event :=
  | Chunk (text : string)
  | MessageSent (m : ChatMessage)
  | MessageReceived (m : ChatMessage)
  | ToolUsed (t : ToolCallInfo).

(** ** config.py *)

Module Config.

Record FormData := {
  title : string;
  description : string;
  requirements : string;
  constraints : string;
  additional_info : string
}.

(** The declared fields, [FormData.model_fields], in declaration order,
    each with its declared default ([title: str = ...]); a field declared
    without default would carry [None] and be required. *)
Definition model_fields : list (string * option string) :=
  [("title", Some EmptyString);
   ("description", Some EmptyString);
   ("requirements", Some EmptyString);
   ("constraints", Some EmptyString);
   ("additional_info", Some EmptyString)].

Fixpoint assoc {A} (k : string) (l : list (string * A)) : option A :=
  match l with
  | [] => None
  | (k', v) :: l' => if decide (k' = k) then Some v else assoc k l'
  end.

(** A value the extractor may put under a field name. *)
Inductive value :=
  | VStr (s : string)
  | VInt (z : Z)
  | VNone.

Inductive validation_error :=
  | Missing (field : string)
  | StringType (field : string).

(** Validation of one [str] field: a string is kept, any other value is a
    type error, an absent key takes the declared default and is an error
    when the field has none. *)
Definition validate_field (raw : gmap string value) (f : string)
  : validation_error + string :=
  match raw !! f with
  | Some (VStr s) => inr s
  | Some _ => inl (StringType f)
  | None => match assoc f model_fields with
            | Some (Some d) => inr d
            | _ => inl (Missing f)
            end
  end.

(** [FormData.model_validate(raw)]: fields are validated in declaration
    order, unknown keys are ignored. *)
Definition model_validate (raw : gmap string value) : validation_error + FormData :=
  match validate_field raw "title" with
  | inl e => inl e
  | inr t =>
  match validate_field raw "description" with
  | inl e => inl e
  | inr d =>
  match validate_field raw "requirements" with
  | inl e => inl e
  | inr r =>
  match validate_field raw "constraints" with
  | inl e => inl e
  | inr c =>
  match validate_field raw "additional_info" with
  | inl e => inl e
  | inr a =>
      inr {| title := t; description := d; requirements := r;
             constraints := c; additional_info := a |}
  end end end end end.

End Config.

(** ** components/state.py *)

Module State.

Definition CHAT_AGENT_NAME : string := "Dieter".
Definition FORM_AGENT_NAME : string := "Uschi".

(** [st.session_state] once [State.initialize] has run: [form_data] and
    [messages] exist; [completed_form] is only ever read by the sources,
    so it may be absent.  The two agent objects kept under
    [session_state.agents] are threaded explicitly by the pages. *)
Record session_state := {
  form_data : gmap string string;
  messages : gmap string (list ChatMessage);
  completed_form : option Config.FormData
}.

Definition with_messages (s : session_state)
    (d : gmap string (list ChatMessage)) : session_state :=
  {| form_data := form_data s; messages := d;
     completed_form := completed_form s |}.

(** [d[key]] on the [defaultdict(list)]: a missing key is inserted with the
    empty list; the list found and the dictionary afterwards. *)
Definition getitem (key : string) (d : gmap string (list ChatMessage))
  : list ChatMessage * gmap string (list ChatMessage) :=
  match d !! key with
  | Some l => (l, d)
  | None => ([], <[key := []]> d)
  end.

(** The log of an agent as a reader sees it. *)
Definition log (key : string) (s : session_state) : list ChatMessage :=
  fst (getitem key (messages s)).

Definition clear_agent_messages (agent_name : string) (s : session_state)
  : session_state :=
  with_messages s (<[agent_name := []]> (messages s)).

(** The [chat_messages] property: the list and the session afterwards. *)
Definition chat_messages (s : session_state) : list ChatMessage * session_state :=
  let '(l, d) := getitem CHAT_AGENT_NAME (messages s) in (l, with_messages s d).

(** [list.append] on the list object stored under [key]. *)
Definition append (key : string) (msg : ChatMessage) (s : session_state)
  : session_state :=
  let '(l, d) := getitem key (messages s) in
  with_messages s (<[key := l ++ [msg]]> d).

End State.

(** ** What the pages put on screen *)

Inductive st_call :=
  | StTitle (text : string)
  | StSubheader (text : string)
  | StChatMessage (r : string)
  | StMarkdown (text : string)
  | StWarning (text : string)
  | StError (text : string)
  | PlaceholderMarkdown (text : string)
  | StToolCall (t : ToolCallInfo)
  | StModelForm (f : Config.FormData)
  | StDownloadButton (data : string).

(** The session, the screen, and the calls made to the agents so far
    (agent name and prompt of each [run] / [run_stream]). *)
Record world := {
  session : State.session_state;
  page : list st_call;
  calls : list (string * string)
}.

Definition on_session (f : State.session_state -> State.session_state)
    (w : world) : world :=
  {| session := f (session w); page := page w; calls := calls w |}.

Definition show (c : st_call) (w : world) : world :=
  {| session := session w; page := page w ++ [c]; calls := calls w |}.

Definition called (agent : Agent) (prompt : string) (w : world) : world :=
  {| session := session w; page := page w;
     calls := calls w ++ [(name agent, prompt)] |}.

(** What an agent does when called with a prompt: the events up to the
    point where the call returns its value, raises or is cancelled. *)
Definition behaviour (R : Type) : Type := string -> list event * Py.outcome R.

(** ** components/chat.py *)

Module Chat.

(** The body of the closure [collect_message] of [stream_response] and
    [return_response], which runs when a call of the closure is awaited;
    [agent] is the captured variable. *)
Definition collect_message (agent : Agent) (msg : ChatMessage)
    (s : State.session_state) : State.session_state :=
  let '(messages, d) := State.getitem (name agent) (State.messages s) in
  if decide (msg ∈ messages) then State.with_messages s d
  else State.with_messages s (<[name agent := messages ++ [msg]]> d).

(** What a call of the closure does.  [collect_message] is declared
    [async def]: calling it builds a coroutine object and runs none of its
    body; the body above runs only when the coroutine is awaited.  A signal
    calls its callbacks and drops what they return, so the coroutine is
    never awaited and the session stays as it is. *)
Definition call_collect_message (agent : Agent) (msg : ChatMessage)
    (s : State.session_state) : State.session_state := s.

(** The agent emits a signal: every connected callback is called, in
    connection order.  The callbacks the sources connect to the message
    signals are [collect_message] closures over this agent, those
    connected to [tool_used] are the [render] closures of the chat page,
    plain functions whose body runs at the call. *)
Definition emit (agent : Agent) (e : event) (w : world) : world :=
  match e with
  | Chunk _ => w
  | MessageSent m =>
      fold_left (fun w _ => on_session (call_collect_message agent m) w)
                (message_sent agent) w
  | MessageReceived m =>
      fold_left (fun w _ => on_session (call_collect_message agent m) w)
                (message_received agent) w
  | ToolUsed t =>
      fold_left (fun w _ => show (StToolCall t) w) (tool_used agent) w
  end.

(** [async for chunk in stream.stream(): placeholder.markdown(chunk)],
    with the signals the agent emits in between. *)
Fixpoint consume_stream (agent : Agent) (script : list event) (w : world) : world :=
  match script with
  | [] => w
  | Chunk c :: rest => consume_stream agent rest (show (PlaceholderMarkdown c) w)
  | e :: rest => consume_stream agent rest (emit agent e w)
  end.

(** [await agent.run(prompt)]: only signals reach this code. *)
Fixpoint await_run (agent : Agent) (script : list event) (w : world) : world :=
  match script with
  | [] => w
  | e :: rest => await_run agent rest (emit agent e w)
  end.

Definition connect_collect (cb : nat) (agent : Agent) : Agent :=
  {| name := name agent;
     message_sent := Signal.connect cb (message_sent agent);
     message_received := Signal.connect cb (message_received agent);
     tool_used := tool_used agent |}.

Definition disconnect_collect (cb : nat) (agent : Agent) : Agent :=
  {| name := name agent;
     message_sent := Signal.disconnect cb (message_sent agent);
     message_received := Signal.disconnect cb (message_received agent);
     tool_used := tool_used agent |}.

(** [stream_response(agent, prompt, placeholder)].  [cb] is the closure
    created by this call; [run_stream] is what [agent.run_stream] does.
    The [finally] block runs for every ending of the stream, then the
    ending propagates. *)
Definition stream_response (cb : nat) (run_stream : behaviour unit)
    (agent : Agent) (prompt : string) (w : world)
  : Agent * world * Py.outcome unit :=
  let agent1 := connect_collect cb agent in
  let '(script, ending) := run_stream prompt in
  let w1 := consume_stream agent1 script (called agent1 prompt w) in
  let agent2 := disconnect_collect cb agent1 in
  (agent2, w1, ending).

(** [return_response(agent, prompt)]: the value of [agent.run] is
    dropped and the function returns [None], written [Returned None]; a
    function that handed a message back would return [Returned (Some m)]. *)
Definition return_response (cb : nat) (run : behaviour ChatMessage)
    (agent : Agent) (prompt : string) (w : world)
  : Agent * world * Py.outcome (option ChatMessage) :=
  let agent1 := connect_collect cb agent in
  let '(script, ending) := run prompt in
  let w1 := await_run agent1 script (called agent1 prompt w) in
  let agent2 := disconnect_collect cb agent1 in
  (agent2, w1,
   match ending with
   | Py.Returned _ => Py.Returned None
   | Py.Raised e => Py.Raised e
   | Py.Cancelled => Py.Cancelled
   end).


End Chat.

(** How a page script ends: it runs to its end, leaves through
    [st.switch_page] or [st.rerun], or an exception or a cancellation
    escapes it. *)
Inductive script_end :=
  | Done
  | SwitchPage (path : string)
  | Rerun
  | Failed (e : string)
  | Interrupted.

(** ** pages/step1.py *)

Module Step1.

Record input := {
  ticket_button : bool;
  new_conversation_button : bool;
  chat_input : option string;
  (** the id drawn by [ChatMessage(content=prompt, role=...)] *)
  fresh_id : string
}.

Definition connect_render (cb : nat) (agent : Agent) : Agent :=
  {| name := name agent;
     message_sent := message_sent agent;
     message_received := message_received agent;
     tool_used := Signal.connect cb (tool_used agent) |}.

Definition disconnect_render (cb : nat) (agent : Agent) : Agent :=
  {| name := name agent;
     message_sent := message_sent agent;
     message_received := message_received agent;
     tool_used := Signal.disconnect cb (tool_used agent) |}.

(** The history loop: one chat bubble per message, with its tool calls. *)
Fixpoint display_history (msgs : list ChatMessage) (w : world) : world :=
  match msgs with
  | [] => w
  | message :: rest =>
      let w1 := show (StMarkdown (content message))
                  (show (StChatMessage (role_str (msg_role message))) w) in
      display_history rest
        (fold_left (fun w t => show (StToolCall t) w) (tool_calls message) w1)
  end.

(** [main_async()] on a session that holds the agents and the keys
    [State.initialize] provides, as on every run after the first; the
    page on the session as it is, where the buttons come before
    [State.initialize], is [Step1Session.main_async] below.  [cb] is the
    closure [render] created by this run and [run] is what
    [chat_agent.run] does.  The sidebar only edits the agent's model,
    tools and system prompt and is left out. *)
Definition main_async (inp : input) (cb : nat) (run : behaviour ChatMessage)
    (chat_agent : Agent) (w : world) : Agent * world * script_end :=
  if ticket_button inp then (chat_agent, w, SwitchPage "pages/step2.py")
  else if new_conversation_button inp then
    (chat_agent,
     on_session (State.clear_agent_messages (name chat_agent)) w, Rerun)
  else
    let w := show (StTitle "🤖 EU-AI Act Analyse Tool - Chat") w in
    let '(history, s) := State.chat_messages (session w) in
    let w := display_history history (on_session (fun _ => s) w) in
    match chat_input inp with
    | None => (chat_agent, w, Done)
    | Some EmptyString => (chat_agent, w, Done)
    | Some prompt =>
        let chat_message := mkChatMessage (fresh_id inp) prompt user in
        let w := on_session (State.append State.CHAT_AGENT_NAME chat_message) w in
        let w := show (StMarkdown prompt) (show (StChatMessage "user") w) in
        (* try: *)
        let w := show (StChatMessage "assistant") w in
        let agent1 := connect_render cb chat_agent in
        let '(script, ending) := run prompt in
        let w := Chat.await_run agent1 script (called agent1 prompt w) in
        match ending with
        | Py.Returned full_response =>
            let w := show (StMarkdown (content full_response)) w in
            let agent2 := disconnect_render cb agent1 in
            let w := on_session
                       (State.append State.CHAT_AGENT_NAME full_response) w in
            (agent2, w, Done)
        | Py.Raised e =>
            (* except Exception as e: *)
            (agent1, show (StError ("Ein Fehler ist aufgetreten: " +:+ e)) w, Done)
        | Py.Cancelled => (agent1, w, Interrupted)
        end
    end.

End Step1.

(** ** pages/step2.py *)

Module Step2.

(** The structured agent ([Agent(...).to_structured(FormData)]): the
    model's raw output is validated against [FormData]; a validation
    failure is raised by [run]. *)
Definition structured_run (raw_run : behaviour (gmap string Config.value))
  : behaviour Config.FormData :=
  fun prompt =>
    let '(script, ending) := raw_run prompt in
    (script,
     match ending with
     | Py.Returned raw =>
         match Config.model_validate raw with
         | inr form => Py.Returned form
         | inl _ => Py.Raised "ValidationError"
         end
     | Py.Raised e => Py.Raised e
     | Py.Cancelled => Py.Cancelled
     end).

(** The f-string [f"{msg.role.upper()}: {msg.content}"]. *)
Definition format_message (msg : ChatMessage) : string :=
  Py.upper (role_str (msg_role msg)) +:+ ": " +:+ content msg.

Definition chat_text (chat_messages : list ChatMessage) : string :=
  Py.join (Py.nl +:+ Py.nl) (map format_message chat_messages).

Definition prompt_of (chat_messages : list ChatMessage) : string :=
  "Based on the following chat conversation, create a ticket for our ticket system. "
  +:+ "Extract relevant information like the issue, priority, and any important details. "
  +:+ (Py.nl +:+ Py.nl +:+ "CHAT HISTORY:" +:+ Py.nl +:+ chat_text chat_messages
       +:+ Py.nl +:+ Py.nl)
  +:+ "Please create a structured ticket with appropriate fields.".

(** [process_chat_history(agent, chat_messages)]. *)
Definition process_chat_history (run : behaviour Config.FormData)
    (agent : Agent) (chat_messages : list ChatMessage) (w : world)
  : world * Py.outcome Config.FormData :=
  let prompt := prompt_of chat_messages in
  let '(script, ending) := run prompt in
  (Chat.await_run agent script (called agent prompt w), ending).

Definition NO_MESSAGES : string :=
  "Keine Chat-Nachrichten gefunden. Bitte führen Sie zuerst eine Unterhaltung.".

Definition ticket_text (t : Config.FormData) : string :=
  "Title: " +:+ Config.title t +:+ Py.nl +:+ Py.nl
  +:+ "Description: " +:+ Config.description t +:+ Py.nl +:+ Py.nl
  +:+ "Requirements: " +:+ Config.requirements t +:+ Py.nl +:+ Py.nl
  +:+ "Constraints: " +:+ Config.constraints t +:+ Py.nl +:+ Py.nl
  +:+ "Additional Info: " +:+ Config.additional_info t.

Section MainAsync.

(** [components.primitives.render_model_form] is not part of the sources
    at hand: it shows the form and returns the record as edited by the
    user. *)
Variable render_model_form : Config.FormData -> Config.FormData.

(** [main_async()].  [back_button] tells whether the button shown on this
    run is pressed; the sidebar is left out as on the chat page. *)
Definition main_async (back_button : bool) (run : behaviour Config.FormData)
    (ticket_creator : Agent) (w : world) : world * script_end :=
  let w := show (StTitle "🎫 EU-AI Act Analyse Tool - Ticket erstellen") w in
  let '(chat_messages, s) := State.chat_messages (session w) in
  let w := on_session (fun _ => s) w in
  match chat_messages with
  | [] =>
      let w := show (StWarning NO_MESSAGES) w in
      if back_button then (w, SwitchPage "pages/step1.py") else (w, Done)
  | _ :: _ =>
      match process_chat_history run ticket_creator chat_messages w with
      | (w, Py.Returned ticket_data) =>
          let w := show (StSubheader "Generiertes Ticket") w in
          let updated_ticket := render_model_form ticket_data in
          let w := show (StModelForm ticket_data) w in
          let w := show (StDownloadButton (ticket_text updated_ticket)) w in
          if back_button then (w, SwitchPage "pages/step1.py") else (w, Done)
      | (w, Py.Raised e) => (w, Failed e)
      | (w, Py.Cancelled) => (w, Interrupted)
      end
  end.

End MainAsync.

End Step2.

(** ** Observations used by the statements *)

(** The fragments handed to the sink ([placeholder.markdown]), in order. *)
Definition sink_fragments (p : list st_call) : list string :=
  omap (fun c => match c with PlaceholderMarkdown t => Some t | _ => None end) p.

(** The chunks a stream yields, in order. *)
Definition chunks (script : list event) : list string :=
  omap (fun e => match e with Chunk t => Some t | _ => None end) script.

(** The messages an agent emits on [message_sent] and [message_received]. *)
Definition emitted (script : list event) : list ChatMessage :=
  omap (fun e => match e with
                 | MessageSent m | MessageReceived m => Some m
                 | _ => None
                 end) script.

(** Concatenation of fragments. *)
Definition concat_fragments (fs : list string) : string :=
  foldr String.append EmptyString fs.

(** The prompts with which an agent was called. *)
Definition prompts_to (agent_name : string) (cs : list (string * string))
  : list string :=
  omap (fun c => if decide (fst c = agent_name) then Some (snd c) else None) cs.

(** Two worlds agree on the form fields of the session and on the calls
    made to the agents. *)
Definition same_record (w w' : world) : Prop :=
  State.form_data (session w') = State.form_data (session w) ∧
  State.completed_form (session w') = State.completed_form (session w) ∧
  calls w' = calls w.


(** The transcript as the specification words it: one line
    [ROLE_UPPER: content] per message, lines separated by a blank line,
    in log order. *)
Module Spec.

Definition ROLE_UPPER (r : role) : string :=
  match r with
  | user => "USER"
  | assistant => "ASSISTANT"
  | system => "SYSTEM"
  end.

Definition line (m : ChatMessage) : string :=
  ROLE_UPPER (msg_role m) +:+ ": " +:+ content m.

Fixpoint transcript (log : list ChatMessage) : string :=
  match log with
  | [] => EmptyString
  | m :: rest =>
      match rest with
      | [] => line m
      | _ :: _ => line m +:+ Py.nl +:+ Py.nl +:+ transcript rest
      end
  end.

End Spec.

(** ** A small session used in the examples *)

Module Fixture.

Definition dieter : Agent :=
  {| name := State.CHAT_AGENT_NAME; message_sent := [];
     message_received := []; tool_used := [] |}.

Definition uschi : Agent :=
  {| name := State.FORM_AGENT_NAME; message_sent := [];
     message_received := []; tool_used := [] |}.

Definition empty_session : State.session_state :=
  {| State.form_data := ∅; State.messages := ∅; State.completed_form := None |}.

Definition w0 : world :=
  {| session := empty_session; page := []; calls := [] |}.

Definition m_login : ChatMessage := mkChatMessage "m1" "need a login page" user.
Definition m_priority : ChatMessage := mkChatMessage "m2" "priority?" assistant.
Definition m_friday : ChatMessage :=
  mkChatMessage "m3" "high priority, by Friday" user.

Definition fixed_log : list ChatMessage := [m_login; m_priority; m_friday].

(** A session whose chat log is [l]. *)
Definition with_chat_log (l : list ChatMessage) : world :=
  {| session := {| State.form_data := ∅;
                   State.messages := {[ State.CHAT_AGENT_NAME := l ]};
                   State.completed_form := None |};
     page := []; calls := [] |}.

Definition hello : ChatMessage := mkChatMessage "m4" "Hello" assistant.

(** The agent answers [hello] and announces it on [message_sent]. *)
Definition run_hello : behaviour ChatMessage :=
  fun _ => ([MessageSent hello], Py.Returned hello).

(** The call layer fails. *)
Definition run_fails : behaviour ChatMessage :=
  fun _ => ([], Py.Raised "connection refused").

Definition stream_fails : behaviour unit :=
  fun _ => ([Chunk "He"], Py.Raised "connection refused").

(** A stream that yields deltas. *)
Definition stream_deltas : behaviour unit :=
  fun _ => ([Chunk "He"; Chunk "llo"; MessageSent hello], Py.Returned tt).

(** A stream that yields the text so far at each step. *)
Definition stream_snapshots : behaviour unit :=
  fun _ => ([Chunk "He"; Chunk "Hello"; MessageSent hello], Py.Returned tt).

Definition ticket : Config.FormData :=
  {| Config.title := "Login page"; Config.description := EmptyString;
     Config.requirements := EmptyString; Config.constraints := EmptyString;
     Config.additional_info := EmptyString |}.

Definition empty_form : Config.FormData :=
  {| Config.title := EmptyString; Config.description := EmptyString;
     Config.requirements := EmptyString; Config.constraints := EmptyString;
     Config.additional_info := EmptyString |}.

(** An extractor that fills the title only. *)
Definition extractor : behaviour (gmap string Config.value) :=
  fun _ => ([], Py.Returned {[ "title" := Config.VStr "Login page" ]}).

Definition prompt_input (text : string) : Step1.input :=
  {| Step1.ticket_button := false; Step1.new_conversation_button := false;
     Step1.chat_input := Some text; Step1.fresh_id := "u1" |}.

End Fixture.

From stdpp Require Import sorting.

(** ** Further observations *)

(** The tool calls rendered on a page, in order. *)
Definition tool_renders (p : list st_call) : list ToolCallInfo :=
  omap (fun c => match c with StToolCall t => Some t | _ => None end) p.

(** The tool calls an agent announces on [tool_used]. *)
Definition tools_used (script : list event) : list ToolCallInfo :=
  omap (fun e => match e with ToolUsed t => Some t | _ => None end) script.

(** The forms and download buttons shown on a page, in order. *)
Definition forms_shown (p : list st_call) : list Config.FormData :=
  omap (fun c => match c with StModelForm f => Some f | _ => None end) p.

Definition downloads_offered (p : list st_call) : list string :=
  omap (fun c => match c with StDownloadButton d => Some d | _ => None end) p.

(** The chat bubbles opened on a page, in order. *)
Definition bubbles (p : list st_call) : list string :=
  omap (fun c => match c with StChatMessage r => Some r | _ => None end) p.

(** ** components/chat.py, the chat widget *)

Module ChatUi.

Record input := {
  chat_input : option string;
  (** the id drawn by [ChatMessage(content=prompt, role=...)] *)
  fresh_id : string
}.

(** The history loop of [create_chat_ui]: role and content only. *)
Fixpoint display_history (msgs : list ChatMessage) (w : world) : world :=
  match msgs with
  | [] => w
  | message :: rest =>
      display_history rest
        (show (StMarkdown (content message))
           (show (StChatMessage (role_str (msg_role message))) w))
  end.

(** [create_chat_ui(agent)].  [cb] is the closure [collect_message] that
    the inner [stream_response] creates.  [messages] is the list object
    stored under [agent.name], so [messages.append] is an append to that
    log. *)
Definition create_chat_ui (inp : input) (cb : nat) (run_stream : behaviour unit)
    (agent : Agent) (w : world) : Agent * world * script_end :=
  let '(messages, d) := State.getitem (name agent) (State.messages (session w)) in
  let w := on_session (fun s => State.with_messages s d) w in
  let w := display_history messages w in
  match chat_input inp with
  | None => (agent, w, Done)
  | Some EmptyString => (agent, w, Done)
  | Some prompt =>
      let user_msg := mkChatMessage (fresh_id inp) prompt user in
      let w := on_session (State.append (name agent) user_msg) w in
      let w := show (StMarkdown prompt) (show (StChatMessage "user") w) in
      (* try: *)
      let w := show (StChatMessage "assistant") w in
      match Chat.stream_response cb run_stream agent prompt w with
      | (agent', w, Py.Returned _) => (agent', w, Done)
      | (agent', w, Py.Raised e) =>
          (* except Exception as e: *)
          (agent', show (StError ("Ein Fehler ist aufgetreten: " +:+ e)) w, Done)
      | (agent', w, Py.Cancelled) => (agent', w, Interrupted)
      end
  end.

End ChatUi.

(** ** components/chat_view.py *)

Module ChatView.

(** Truth value of an optional string ([if msg.model:]) and of an
    optional float ([if msg.response_time:]): [None] and a zero float are
    false, every other float is true; the integer that stands for the
    float is 0 exactly for a zero float. *)
Definition truthy_str (s : option string) : bool :=
  match s with
  | Some (String _ _) => true
  | _ => false
  end.

Definition truthy_num (z : option Z) : bool :=
  match z with
  | Some z => negb (z =? 0)%Z
  | None => false
  end.

Section Render.

(** The number formats of the f-strings ([:.4f], [:,], [:.2f]). *)
Variable format_cost : Z -> string.
Variable format_tokens : nat -> string.
Variable format_time : Z -> string.

(** The metadata list of [render_message_content];
    [token_usage['total']] raises [KeyError] when the key is missing. *)
Definition metadata (msg : ChatMessage) : Py.outcome (list string) :=
  let md1 :=
    match model msg with
    | Some m => if truthy_str (Some m) then ["Model: " +:+ m] else []
    | None => []
    end in
  let md3 :=
    match response_time msg with
    | Some z => if truthy_num (Some z) then ["Time: " +:+ format_time z +:+ "s"] else []
    | None => []
    end in
  match cost_info msg with
  | None => Py.Returned (md1 ++ md3)
  | Some ci =>
      match token_usage ci !! "total" with
      | None => Py.Raised "KeyError: 'total'"
      | Some n =>
          Py.Returned
            (md1 ++ ["Cost: $" +:+ format_cost (total_cost ci);
                     "Tokens: " +:+ format_tokens n] ++ md3)
      end
  end.

(** [render_message_content(msg, container)]: content, then one expander
    per tool call ([render_tool_call], kept as one entry), then the
    footer when there is metadata. *)
Definition render_message_content (msg : ChatMessage) (w : world)
  : world * Py.outcome unit :=
  let w := show (StMarkdown (content msg)) w in
  let w := fold_left (fun w t => show (StToolCall t) w) (tool_calls msg) w in
  match metadata msg with
  | Py.Returned [] => (w, Py.Returned tt)
  | Py.Returned md =>
      (show (StMarkdown (Py.join " | " md)) (show (StMarkdown "---") w),
       Py.Returned tt)
  | Py.Raised e => (w, Py.Raised e)
  | Py.Cancelled => (w, Py.Cancelled)
  end.

(** [chatmessage_view(messages, container)]. *)
Fixpoint chatmessage_view (messages : list ChatMessage) (w : world)
  : world * Py.outcome unit :=
  match messages with
  | [] => (w, Py.Returned tt)
  | msg :: rest =>
      let role := if decide (msg_role msg = user) then "user" else "assistant" in
      match render_message_content msg (show (StChatMessage role) w) with
      | (w, Py.Returned _) => chatmessage_view rest w
      | (w, o) => (w, o)
      end
  end.

End Render.

End ChatView.

(** ** components/model_selector.py *)

Module ModelSelector.

(** [tokonomics.model_discovery.ModelInfo], the attributes read here;
    [details] is the text of [format()]. *)
Record ModelInfo := {
  provider : string;
  name : string;
  pydantic_ai_id : string;
  details : string
}.

#[global] Instance ModelInfo_eq_dec : EqDecision ModelInfo.
Proof. solve_decision. Defined.

(** [sorted({...})] on strings. *)
Definition sorted_set (l : list string) : list string :=
  merge_sort String.le (remove_dups l).

(** [xs.index(x)]: the first position of [x]; [None] stands for
    [ValueError]. *)
Fixpoint index (x : string) (xs : list string) : option nat :=
  match xs with
  | [] => None
  | y :: ys => if decide (y = x) then Some 0 else S <$> index x ys
  end.

(** [next((m for m in models if p(m)), None)]. *)
Fixpoint first_where (p : ModelInfo -> bool) (models : list ModelInfo)
  : option ModelInfo :=
  match models with
  | [] => None
  | m :: rest => if p m then Some m else first_where p rest
  end.

(** [st.selectbox(label, options=..., index=...)]: the option the user
    selected when it is one of the options, the option at [index]
    otherwise; [None] when there is no option. *)
Definition selectbox (options : list string) (idx : nat) (picked : option string)
  : option string :=
  match picked with
  | Some v => if decide (v ∈ options) then Some v else options !! idx
  | None => options !! idx
  end.

Inductive result :=
  | IndexError
  | Selected (selected_model : option ModelInfo) (set_model : option string)
             (shown : list st_call).

(** [model_selector(agent=..., providers=..., expanded=...)].  [models] is
    what [get_all_models_sync] returns, [current_model_id] is
    [agent.model_name], [picked_provider] and [picked_model] are the
    selections the user made earlier, if any.  The result carries the
    returned model, the call made to [agent.set_model], if any, and what
    is put on screen. *)
Definition model_selector (models : list ModelInfo)
    (current_model_id : option string)
    (picked_provider picked_model : option string) : result :=
  let available_providers := sorted_set (map provider models) in
  let current_model :=
    match current_model_id with
    | Some (String c id) =>
        first_where (fun m => bool_decide (pydantic_ai_id m = String c id)) models
    | _ => None
    end in
  let current_provider := provider <$> current_model in
  let selected_provider :=
    if (1 <? length available_providers)%nat then
      let default_provider_idx :=
        match current_provider with
        | Some p => default 0 (index p available_providers)
        | None => 0
        end in
      Py.Returned (selectbox available_providers default_provider_idx picked_provider)
    else
      match available_providers with
      | p :: _ => Py.Returned (Some p)
      | [] => Py.Raised "IndexError"
      end in
  match selected_provider with
  | Py.Returned selected_provider =>
      let provider_models :=
        filter (fun m => Some (provider m) = selected_provider) models in
      let model_names := map name provider_models in
      let default_model_idx :=
        match current_model with
        | Some cm =>
            if decide (Some (provider cm) = selected_provider)
            then default 0 (index (name cm) model_names)
            else 0
        | None => 0
        end in
      let selected_name := selectbox model_names default_model_idx picked_model in
      let selected_model :=
        first_where (fun m => bool_decide (Some (name m) = selected_name))
                    provider_models in
      match selected_model with
      | Some m =>
          Selected (Some m)
            (if decide (Some (pydantic_ai_id m) = current_model_id)
             then None else Some (pydantic_ai_id m))
            [StMarkdown (details m)]
      | None => Selected None None []
      end
  | _ => IndexError
  end.

End ModelSelector.

(** The two halves of [model_selector], named for the proofs: the choice
    of the provider and what follows it. *)
Module ModelSelectorSteps.

Import ModelSelector.

Definition current_model (models : list ModelInfo)
    (current_model_id : option string) : option ModelInfo :=
  match current_model_id with
  | Some (String c id) =>
      first_where (fun m => bool_decide (pydantic_ai_id m = String c id)) models
  | _ => None
  end.

Definition provider_step (models : list ModelInfo)
    (current_model_id picked_provider : option string)
  : Py.outcome (option string) :=
  let available_providers := sorted_set (map provider models) in
  if (1 <? length available_providers)%nat then
    let default_provider_idx :=
      match provider <$> current_model models current_model_id with
      | Some p => default 0 (index p available_providers)
      | None => 0
      end in
    Py.Returned (selectbox available_providers default_provider_idx picked_provider)
  else
    match available_providers with
    | p :: _ => Py.Returned (Some p)
    | [] => Py.Raised "IndexError"
    end.

Definition model_step (models : list ModelInfo)
    (current_model_id selected_provider picked_model : option string) : result :=
  let provider_models :=
    filter (fun m => Some (provider m) = selected_provider) models in
  let model_names := map name provider_models in
  let default_model_idx :=
    match current_model models current_model_id with
    | Some cm =>
        if decide (Some (provider cm) = selected_provider)
        then default 0 (index (name cm) model_names)
        else 0
    | None => 0
    end in
  let selected_name := selectbox model_names default_model_idx picked_model in
  match first_where (fun m => bool_decide (Some (name m) = selected_name))
                    provider_models with
  | Some m =>
      Selected (Some m)
        (if decide (Some (pydantic_ai_id m) = current_model_id)
         then None else Some (pydantic_ai_id m))
        [StMarkdown (details m)]
  | None => Selected None None []
  end.

End ModelSelectorSteps.

(** ** components/state.py, [State.initialize] *)

Module StateInit.

Definition CHAT_AGENT_SYS_PROMPT : string :=
  "Du bist Uschi. Dein Umgangston ist sehr ruppig. Du bist dafür verantwortlich, möglichst unfreundlich"
  +:+ Py.nl +:+ "dem User beim Bewältigen seiner Aufgaben zu helfen." +:+ Py.nl.

Definition TICKET_CREATOR_SYS_PROMPT : string :=
  "Du bist verantwortllich, Tickets im Jira-TicketSystem zu erstellen."
  +:+ Py.nl +:+ "Extrahiere Informationen aus dem dir gegebenen Chatverlauf." +:+ Py.nl.

Definition MODEL_NAME : string := "openrouter:openai/gpt-4o-mini".

(** The arguments an agent object is built from. *)
Record agent_object := {
  agent_name : string;
  agent_model : string;
  system_prompt : string;
  (** [.to_structured(FormData)] *)
  structured : bool
}.

(** [st.session_state]: each key is there or not. *)
Record session_state := {
  agents : option (gmap string agent_object);
  form_data : option (gmap string string);
  messages : option (gmap string (list ChatMessage));
  agent_tools : option (gmap string (list string));
  completed_form : option Config.FormData
}.

(** [{field: "" for field in FormData.model_fields}]. *)
Definition blank_form : gmap string string :=
  fold_left (fun d f => <[f.1 := EmptyString]> d) Config.model_fields ∅.

(** [State.initialize()]. *)
Definition initialize (s : session_state) : session_state :=
  let agents' :=
    match agents s with
    | Some a => Some a
    | None =>
        let form_agent :=
          {| agent_name := State.FORM_AGENT_NAME; agent_model := MODEL_NAME;
             system_prompt := CHAT_AGENT_SYS_PROMPT; structured := true |} in
        let chat_agent :=
          {| agent_name := State.CHAT_AGENT_NAME; agent_model := MODEL_NAME;
             system_prompt := TICKET_CREATOR_SYS_PROMPT; structured := false |} in
        Some (<[agent_name chat_agent := chat_agent]>
                (<[agent_name form_agent := form_agent]> ∅))
    end in
  {| agents := agents';
     form_data := match form_data s with Some f => Some f | None => Some blank_form end;
     messages := match messages s with Some m => Some m | None => Some ∅ end;
     agent_tools := match agent_tools s with Some t => Some t | None => Some ∅ end;
     completed_form := completed_form s |}.

(** The properties [form_agent], [chat_agent] and [completed_form]: a
    missing key or attribute raises. *)
Definition form_agent (s : session_state) : Py.outcome agent_object :=
  match agents s with
  | None => Py.Raised "AttributeError: agents"
  | Some a => match a !! State.FORM_AGENT_NAME with
              | Some x => Py.Returned x
              | None => Py.Raised "KeyError: 'Uschi'"
              end
  end.

Definition chat_agent (s : session_state) : Py.outcome agent_object :=
  match agents s with
  | None => Py.Raised "AttributeError: agents"
  | Some a => match a !! State.CHAT_AGENT_NAME with
              | Some x => Py.Returned x
              | None => Py.Raised "KeyError: 'Dieter'"
              end
  end.

Definition get_completed_form (s : session_state) : Py.outcome Config.FormData :=
  match completed_form s with
  | Some f => Py.Returned f
  | None => Py.Raised "AttributeError: completed_form"
  end.

(** The session the pages work on, once every key they read is there. *)
Definition ready (s : session_state) : option State.session_state :=
  match form_data s, messages s with
  | Some f, Some m =>
      Some {| State.form_data := f; State.messages := m;
              State.completed_form := completed_form s |}
  | _, _ => None
  end.

End StateInit.

(** ** pages/step1.py on the session as it is *)

Module Step1Session.

Inductive result :=
  | Raises (e : string)
  | Leaves (s : StateInit.session_state) (fin : script_end)
  | Runs (r : Agent * world * script_end).

Definition with_messages (s : StateInit.session_state)
    (d : gmap string (list ChatMessage)) : StateInit.session_state :=
  {| StateInit.agents := StateInit.agents s;
     StateInit.form_data := StateInit.form_data s;
     StateInit.messages := Some d;
     StateInit.agent_tools := StateInit.agent_tools s;
     StateInit.completed_form := StateInit.completed_form s |}.

(** [main_async()] of the chat page from its first line.  The two buttons
    come before [State.initialize]: [state.chat_agent] and
    [state.messages] are read from the session as it is, and a missing
    key raises.  Past the buttons the session is initialised and the page
    goes on as [Step1.main_async]; [chat_agent] is the agent object then
    stored under the chat agent's name, [pg] and [cs] are the screen and
    the calls so far. *)
Definition main_async (inp : Step1.input) (cb : nat)
    (run : behaviour ChatMessage) (chat_agent : Agent)
    (s : StateInit.session_state) (pg : list st_call)
    (cs : list (string * string)) : result :=
  if Step1.ticket_button inp then Leaves s (SwitchPage "pages/step2.py")
  else if Step1.new_conversation_button inp then
    match StateInit.agents s with
    | None => Raises "AttributeError: agents"
    | Some agents =>
        match agents !! State.CHAT_AGENT_NAME with
        | None => Raises "KeyError: 'Dieter'"
        | Some a =>
            match StateInit.messages s with
            | None => Raises "AttributeError: messages"
            | Some d =>
                Leaves (with_messages s (<[StateInit.agent_name a := []]> d)) Rerun
            end
        end
    end
  else
    let s' := StateInit.initialize s in
    Runs (Step1.main_async inp cb run chat_agent
            {| session :=
                 {| State.form_data := default ∅ (StateInit.form_data s');
                    State.messages := default ∅ (StateInit.messages s');
                    State.completed_form := StateInit.completed_form s' |};
               page := pg; calls := cs |}).

End Step1Session.

(** ** sharepoint_tool.py *)

Module Sharepoint.

(** Iterating over a string yields its characters, each a string. *)
Fixpoint chars (s : string) : list string :=
  match s with
  | EmptyString => []
  | String c s' => String c EmptyString :: chars s'
  end.

(** What the account service hands back for a site or a drive. *)
Inductive item := NoItem | DriveItem | FolderItem | OtherItem.

(** The [O365.Account] the constructor talks to. *)
Record Account := {
  is_authenticated : bool;
  (** [authenticate(requested_scopes=...) is False] holds when this is [false] *)
  authenticate : list (list string) -> bool;
  site_found : bool;
  get_drive : string -> item
}.

Record Office365 := {
  client_id : string;
  client_secret : string;
  folder_path : option string;
  document_library_id : string;
  (** the argument of [get_scopes_for] at each lookup made, in order *)
  scope_lookups : list string;
  (** the scopes passed to [authenticate], when it is called *)
  requested : option (list (list string))
}.

(** [Office365.__init__].  [get_scopes_for] is the protocol's lookup,
    [account] the account built from the credentials. *)
Definition init (get_scopes_for : string -> list string) (account : Account)
    (client_id client_secret : string) (scopes : list string)
    (document_library_id : string) (path : option string)
  : Py.outcome Office365 :=
  let lookups := sh ← scopes; chars sh in
  let ls := map get_scopes_for lookups in
  let asked := if is_authenticated account then None else Some ls in
  if negb (is_authenticated account) && negb (authenticate account ls) then
    Py.Raised "Authentication Failed"
  else if negb (site_found account) then Py.Raised "AssertionError"
  else
    match get_drive account document_library_id with
    | NoItem => Py.Raised "AssertionError"
    | DriveItem =>
        Py.Returned {| client_id := client_id; client_secret := client_secret;
                       folder_path := path;
                       document_library_id := document_library_id;
                       scope_lookups := lookups; requested := asked |}
    | _ =>
        Py.Raised ("There isn't a Drive with id " +:+ document_library_id +:+ ".")
    end.

End Sharepoint.

(** * Properties *)

(** ** Signals *)

Section SignalFacts.

Implicit Types (cb : nat) (s : Signal.t).

Lemma disconnect_cons_eq cb s : Signal.disconnect cb (cb :: s) = s.
Proof. simpl. by rewrite decide_True. Qed.

Lemma disconnect_absent cb s : cb ∉ s → Signal.disconnect cb s = s.
Proof.
  induction s as [|c s IH]; intros Hnot; [done|].
  apply not_elem_of_cons in Hnot as [Hne Hs]. simpl.
  rewrite decide_False; [|congruence]. by rewrite IH.
Qed.

(** Disconnecting a connected callback removes exactly one connection. *)
Lemma disconnect_present cb s : cb ∈ s → s ≡ₚ cb :: Signal.disconnect cb s.
Proof.
  induction s as [|c s IH]; intros Hin; [by apply elem_of_nil in Hin|].
  simpl. destruct (decide (c = cb)) as [->|Hne]; [done|].
  apply elem_of_cons in Hin as [Heq|Hin]; [congruence|].
  rewrite (IH Hin) at 1. apply Permutation_swap.
Qed.

Lemma disconnect_connect cb s :
  Signal.disconnect cb (Signal.connect cb s) ≡ₚ s.
Proof.
  unfold Signal.connect.
  assert (cb ∈ s ++ [cb]) as Hin by set_solver.
  apply disconnect_present in Hin.
  apply (Permutation_cons_inv (a := cb)).
  rewrite <- Hin. symmetry. apply Permutation_cons_append.
Qed.

(** For a closure that was never connected before (the case of a closure
    created by the call itself) the signal is restored as a list. *)
Lemma disconnect_connect_fresh cb s :
  cb ∉ s → Signal.disconnect cb (Signal.connect cb s) = s.
Proof.
  unfold Signal.connect. induction s as [|c s IH]; intros Hnot; simpl.
  - by rewrite decide_True.
  - apply not_elem_of_cons in Hnot as [Hne Hs].
    rewrite decide_False; [|congruence]. by rewrite IH.
Qed.

End SignalFacts.

(** ** The message store *)

Section StoreFacts.

Implicit Types (d : gmap string (list ChatMessage)) (s : State.session_state)
  (msg : ChatMessage) (agent : Agent) (key : string).

Lemma getitem_fst key d : fst (State.getitem key d) = default [] (d !! key).
Proof. unfold State.getitem. by destruct (d !! key). Qed.

Lemma getitem_snd_eq key d :
  snd (State.getitem key d) !! key = Some (fst (State.getitem key d)).
Proof.
  unfold State.getitem. destruct (d !! key) eqn:E; simpl; [done|].
  by rewrite lookup_insert_eq.
Qed.

Lemma getitem_snd_ne key key' d :
  key ≠ key' → snd (State.getitem key d) !! key' = d !! key'.
Proof.
  intros Hne. unfold State.getitem. destruct (d !! key); simpl; [done|].
  by rewrite lookup_insert_ne.
Qed.

Lemma log_with_messages key s d :
  State.log key (State.with_messages s d) = default [] (d !! key).
Proof. unfold State.log. by rewrite getitem_fst. Qed.

Lemma log_unfold key s : State.log key s = default [] (State.messages s !! key).
Proof. unfold State.log. by rewrite getitem_fst. Qed.

(** The closure appends when the message is new and does nothing to the
    list otherwise. *)
Lemma log_collect_message agent msg s :
  State.log (name agent) (Chat.collect_message agent msg s) =
    if decide (msg ∈ State.log (name agent) s)
    then State.log (name agent) s
    else State.log (name agent) s ++ [msg].
Proof.
  unfold Chat.collect_message.
  pose proof (getitem_fst (name agent) (State.messages s)) as Hfst.
  pose proof (getitem_snd_eq (name agent) (State.messages s)) as Hsnd.
  destruct (State.getitem (name agent) (State.messages s)) as [l d'].
  simpl in *. rewrite (log_unfold (name agent) s), <- Hfst.
  destruct (decide (msg ∈ l)); rewrite log_with_messages.
  - by rewrite Hsnd.
  - by rewrite lookup_insert_eq.
Qed.

Lemma log_collect_message_ne agent msg s key :
  name agent ≠ key →
  State.log key (Chat.collect_message agent msg s) = State.log key s.
Proof.
  intros Hne. unfold Chat.collect_message.
  pose proof (getitem_snd_ne (name agent) key (State.messages s) Hne) as Hsnd.
  destruct (State.getitem (name agent) (State.messages s)) as [l d'].
  simpl in *. rewrite (log_unfold key s), <- Hsnd.
  destruct (decide (msg ∈ l)); rewrite log_with_messages; [done|].
  by rewrite lookup_insert_ne.
Qed.

Lemma collect_message_other_fields agent msg s :
  State.form_data (Chat.collect_message agent msg s) = State.form_data s ∧
  State.completed_form (Chat.collect_message agent msg s) = State.completed_form s.
Proof.
  unfold Chat.collect_message.
  destruct (State.getitem (name agent) (State.messages s)) as [l d'].
  by destruct (decide (msg ∈ l)).
Qed.

(** Once a message is in the log, collecting it again changes nothing at
    all in the session. *)
Lemma collect_message_present agent msg s :
  msg ∈ default [] (State.messages s !! name agent) →
  Chat.collect_message agent msg s = s.
Proof.
  intros Hin. unfold Chat.collect_message, State.getitem.
  destruct (State.messages s !! name agent) as [l|] eqn:E; simpl in Hin.
  - rewrite decide_True by done. by destruct s.
  - by apply elem_of_nil in Hin.
Qed.

Lemma collect_message_member agent msg s :
  msg ∈ State.log (name agent) (Chat.collect_message agent msg s).
Proof.
  rewrite log_collect_message. destruct (decide _); [done|].
  set_solver.
Qed.

Lemma collect_message_idempotent agent msg s :
  Chat.collect_message agent msg (Chat.collect_message agent msg s) =
  Chat.collect_message agent msg s.
Proof.
  apply collect_message_present. rewrite <- log_unfold.
  apply collect_message_member.
Qed.

(** Messages already in a log stay there. *)
Lemma collect_message_keeps agent msg s key m :
  m ∈ State.log key s → m ∈ State.log key (Chat.collect_message agent msg s).
Proof.
  intros Hin. destruct (decide (name agent = key)) as [<-|Hne].
  - rewrite log_collect_message. destruct (decide _); [done|].
    apply elem_of_app. by left.
  - by rewrite log_collect_message_ne.
Qed.

End StoreFacts.

(** ** Signals and the store *)

Section EmitFacts.

Implicit Types (agent : Agent) (w : world) (e : event) (script : list event).

Lemma fold_left_preserves {A B} (P : A → Prop) (g : A → A) (l : list B) (x : A) :
  (∀ y, P y → P (g y)) → P x → P (fold_left (fun y _ => g y) l x).
Proof. intros Hg. revert x. induction l; simpl; auto. Qed.

(** A call of the closure leaves the world as it is, so a message signal
    does, however many closures are connected. *)
Lemma on_session_call agent m w :
  on_session (Chat.call_collect_message agent m) w = w.
Proof. by destruct w. Qed.

Lemma emit_message_sent agent m w : Chat.emit agent (MessageSent m) w = w.
Proof.
  simpl. apply (fold_left_preserves (fun y => y = w)); [|done].
  intros y ->. apply on_session_call.
Qed.

Lemma emit_message_received agent m w : Chat.emit agent (MessageReceived m) w = w.
Proof.
  simpl. apply (fold_left_preserves (fun y => y = w)); [|done].
  intros y ->. apply on_session_call.
Qed.

(** Whatever the widgets preserve is preserved by a whole call against the
    agent. *)
Section Invariant.

Variable P : world → Prop.
Variable agent : Agent.
Hypothesis P_tool : ∀ t y, P y → P (show (StToolCall t) y).

Lemma emit_invariant e w : P w → P (Chat.emit agent e w).
Proof.
  intros Hw. destruct e as [t|m|m|t].
  - done.
  - by rewrite emit_message_sent.
  - by rewrite emit_message_received.
  - simpl. apply (fold_left_preserves P); auto.
Qed.

Lemma await_run_invariant script w : P w → P (Chat.await_run agent script w).
Proof.
  revert w. induction script as [|e script IH]; intros w Hw; simpl; [done|].
  by apply IH, emit_invariant.
Qed.

Hypothesis P_chunk : ∀ c y, P y → P (show (PlaceholderMarkdown c) y).

Lemma consume_stream_invariant script w :
  P w → P (Chat.consume_stream agent script w).
Proof.
  revert w. induction script as [|e script IH]; intros w Hw; simpl; [done|].
  destruct e; apply IH; try (by apply P_chunk);
    by apply (emit_invariant _ w).
Qed.

End Invariant.

(** No call against an agent writes the session or calls an agent. *)
Lemma await_run_session agent script w :
  session (Chat.await_run agent script w) = session w ∧
  calls (Chat.await_run agent script w) = calls w.
Proof.
  by apply (await_run_invariant
              (fun y => session y = session w ∧ calls y = calls w)).
Qed.

Lemma consume_stream_session agent script w :
  session (Chat.consume_stream agent script w) = session w ∧
  calls (Chat.consume_stream agent script w) = calls w.
Proof.
  by apply (consume_stream_invariant
              (fun y => session y = session w ∧ calls y = calls w)).
Qed.

Lemma sink_fragments_app p q :
  sink_fragments (p ++ q) = sink_fragments p ++ sink_fragments q.
Proof. unfold sink_fragments. apply omap_app. Qed.

(** The log of another agent is out of reach. *)
Lemma await_run_log_ne agent script key w :
  name agent ≠ key →
  State.log key (session (Chat.await_run agent script w)) = State.log key (session w).
Proof. intros _. by rewrite (proj1 (await_run_session agent script w)). Qed.

Lemma consume_stream_log_ne agent script key w :
  name agent ≠ key →
  State.log key (session (Chat.consume_stream agent script w)) =
  State.log key (session w).
Proof. intros _. by rewrite (proj1 (consume_stream_session agent script w)). Qed.

(** The form fields of the session and the calls made stay as they are. *)
Lemma await_run_same_record agent script w :
  same_record w (Chat.await_run agent script w).
Proof.
  destruct (await_run_session agent script w) as [Hs Hc].
  unfold same_record. by rewrite Hs, Hc.
Qed.

Lemma consume_stream_same_record agent script w :
  same_record w (Chat.consume_stream agent script w).
Proof.
  destruct (consume_stream_session agent script w) as [Hs Hc].
  unfold same_record. by rewrite Hs, Hc.
Qed.

(** The sink sees the chunks of the stream, all of them, in order, and
    nothing else; a plain [run] never touches it. *)
Lemma await_run_sink agent script w :
  sink_fragments (page (Chat.await_run agent script w)) = sink_fragments (page w).
Proof.
  apply (await_run_invariant
           (fun y => sink_fragments (page y) = sink_fragments (page w)));
    [|done]; intros ? y Hy; simpl.
  rewrite sink_fragments_app, Hy. apply app_nil_r.
Qed.

Lemma emit_sink agent e w :
  sink_fragments (page (Chat.emit agent e w)) = sink_fragments (page w).
Proof. apply (await_run_sink agent [e] w). Qed.

Lemma consume_stream_sink agent script w :
  sink_fragments (page (Chat.consume_stream agent script w)) =
  sink_fragments (page w) ++ chunks script.
Proof.
  revert w. induction script as [|e script IH]; intros w; simpl.
  - by rewrite app_nil_r.
  - destruct e as [c|m|m|t]; rewrite IH.
    + simpl. rewrite sink_fragments_app. simpl. by rewrite <- app_assoc.
    + by rewrite emit_sink.
    + by rewrite emit_sink.
    + by rewrite emit_sink.
Qed.

(** Messages in a log stay in it. *)
Lemma await_run_keeps agent script key m w :
  m ∈ State.log key (session w) →
  m ∈ State.log key (session (Chat.await_run agent script w)).
Proof.
  by rewrite (proj1 (await_run_session agent script w)).
Qed.

Lemma consume_stream_keeps agent script key m w :
  m ∈ State.log key (session w) →
  m ∈ State.log key (session (Chat.consume_stream agent script w)).
Proof.
  by rewrite (proj1 (consume_stream_session agent script w)).
Qed.

End EmitFacts.

(** ** Capture *)

Section CaptureFacts.

Implicit Types (agent : Agent) (w : world) (script : list event) (cb : nat).

Lemma emitted_cons e script : emitted (e :: script) = emitted [e] ++ emitted script.
Proof. unfold emitted. simpl. by destruct e. Qed.

Lemma consume_stream_cons agent e script w :
  Chat.consume_stream agent (e :: script) w =
  Chat.consume_stream agent script
    match e with
    | Chunk c => show (PlaceholderMarkdown c) w
    | _ => Chat.emit agent e w
    end.
Proof. by destruct e. Qed.






(** The [finally] block of the two capture functions undoes their
    [connect] lines. *)
Lemma disconnect_connect_collect cb agent :
  let agent' := Chat.disconnect_collect cb (Chat.connect_collect cb agent) in
  name agent' = name agent ∧
  message_sent agent' ≡ₚ message_sent agent ∧
  message_received agent' ≡ₚ message_received agent ∧
  tool_used agent' = tool_used agent.
Proof. simpl. repeat split; apply disconnect_connect. Qed.

Lemma stream_response_agent cb run_stream agent prompt w :
  (Chat.stream_response cb run_stream agent prompt w).1.1 =
  Chat.disconnect_collect cb (Chat.connect_collect cb agent).
Proof. unfold Chat.stream_response. by destruct (run_stream prompt). Qed.


(** Cleanup of [stream_response] and [return_response]: whatever the
    ending of the call (return, exception, cancellation), the signals of
    the agent hold the same callbacks after the call as before. *)
Lemma stream_response_cleanup cb run_stream agent prompt w :
  let agent' := (Chat.stream_response cb run_stream agent prompt w).1.1 in
  message_sent agent' ≡ₚ message_sent agent ∧
  message_received agent' ≡ₚ message_received agent ∧
  tool_used agent' = tool_used agent.
Proof.
  intros agent'. subst agent'. rewrite stream_response_agent.
  apply disconnect_connect_collect.
Qed.


End CaptureFacts.

(** * The claims *)

(** ** C1: listener cleanup *)

(** C1.  The claim asks that every listener registered around a call is
    unregistered again whatever the outcome of the call.  The chat page
    ([Step1.main_async]) connects [render] to [tool_used] and disconnects it
    only on the normal path: when [chat_agent.run] raises, the page reports
    the error and ends with [render] still connected, whereas
    [stream_response] at the same failing call leaves every signal as it
    found it. *)
Theorem step1_render_listener_leaks_on_error :
  let '(agent', w', fin) :=
    Step1.main_async (Fixture.prompt_input "hi") 7 Fixture.run_fails
      Fixture.dieter Fixture.w0 in
  let '(agent'', _, out) :=
    Chat.stream_response 7 Fixture.stream_fails Fixture.dieter "hi" Fixture.w0 in
  fin = Done ∧
  tool_used Fixture.dieter = [] ∧
  tool_used agent' = [7] ∧
  out = Py.Raised "connection refused" ∧
  agent'' = Fixture.dieter.
Proof. vm_compute. repeat split. Qed.

(** The same in general: on the chat page, a call that does not return
    leaves [render] connected, for an exception as for a cancellation. *)
Lemma step1_no_cleanup_off_normal_path inp cb run chat_agent w prompt script ending :
  Step1.ticket_button inp = false →
  Step1.new_conversation_button inp = false →
  Step1.chat_input inp = Some prompt → prompt ≠ EmptyString →
  run prompt = (script, ending) → Py.is_returned ending = false →
  tool_used (Step1.main_async inp cb run chat_agent w).1.1 =
    tool_used chat_agent ++ [cb].
Proof.
  intros Ht Hn Hc Hp Hrun Hend. unfold Step1.main_async.
  rewrite Ht, Hn, Hc.
  destruct (State.chat_messages _) as [history s].
  destruct prompt as [|c prompt]; [done|].
  rewrite Hrun. by destruct ending.
Qed.

(** ** C2: deduplicating append *)

(** C2 (counterexample).  With the message already in the log, collecting it
    twice leaves the length as it was: the increase is zero, not one. *)
Lemma present_message_collected_twice :
  let s := session (Fixture.with_chat_log [Fixture.m_login]) in
  let s2 := Chat.collect_message Fixture.dieter Fixture.m_login
              (Chat.collect_message Fixture.dieter Fixture.m_login s) in
  length (State.log State.CHAT_AGENT_NAME s2) ≠
  S (length (State.log State.CHAT_AGENT_NAME s)).
Proof. vm_compute. discriminate. Qed.

(** C2 (amended).  Collecting the same message twice into an agent's log
    gives the session that collecting it once gives; the first collect
    appends the message exactly when no equal message is in the log, so
    the length grows by one when the message was absent and by zero when
    it was present. *)
Theorem collect_message_twice agent msg s :
  let s1 := Chat.collect_message agent msg s in
  let s2 := Chat.collect_message agent msg s1 in
  s2 = s1 ∧
  State.log (name agent) s1 =
    (if decide (msg ∈ State.log (name agent) s)
     then State.log (name agent) s
     else State.log (name agent) s ++ [msg]) ∧
  length (State.log (name agent) s2) =
    length (State.log (name agent) s) +
    (if decide (msg ∈ State.log (name agent) s) then 0 else 1).
Proof.
  intros s1 s2. subst s1 s2. rewrite collect_message_idempotent.
  split; [done|]. rewrite log_collect_message. split; [done|].
  destruct (decide _); [lia|]. rewrite length_app. simpl. lia.
Qed.

(** ** C3: a second capture while one is active *)



(** ** C4: the transcript *)

Lemma string_app_assoc (a b c : string) : (a +:+ b) +:+ c = a +:+ (b +:+ c).
Proof.
  induction a as [|x a IH]; [done|].
  change (String x ((a +:+ b) +:+ c) = String x (a +:+ (b +:+ c))).
  by rewrite IH.
Qed.

Lemma upper_role (r : role) : Py.upper (role_str r) = Spec.ROLE_UPPER r.
Proof. by destruct r. Qed.

Lemma format_message_line (m : ChatMessage) : Step2.format_message m = Spec.line m.
Proof. unfold Step2.format_message, Spec.line. by rewrite upper_role. Qed.

Lemma chat_text_transcript (msgs : list ChatMessage) :
  Step2.chat_text msgs = Spec.transcript msgs.
Proof.
  unfold Step2.chat_text. induction msgs as [|m rest IH]; [done|].
  destruct rest as [|m' rest'].
  - apply format_message_line.
  - change (Step2.format_message m +:+ (Py.nl +:+ Py.nl) +:+
              Py.join (Py.nl +:+ Py.nl) (map Step2.format_message (m' :: rest')) =
            Spec.line m +:+ Py.nl +:+ Py.nl +:+ Spec.transcript (m' :: rest')).
    by rewrite IH, format_message_line, string_app_assoc.
Qed.

Lemma process_chat_history_calls run agent msgs w :
  calls (Step2.process_chat_history run agent msgs w).1 =
  calls w ++ [(name agent, Step2.prompt_of msgs)].
Proof.
  unfold Step2.process_chat_history.
  destruct (run (Step2.prompt_of msgs)) as [script ending]. simpl.
  by destruct (await_run_same_record agent script
                 (called agent (Step2.prompt_of msgs) w)) as (_ & _ & ->).
Qed.

(** C4.  The text handed to the extractor is a fixed head, the transcript
    and a fixed tail, where the transcript is one [ROLE_UPPER: content]
    line per message, in log order, with a blank line between lines; on
    the three-message log it is the expected text. *)
Theorem transcript_rendering :
  (∃ head tail : string, ∀ run agent msgs w,
      calls (Step2.process_chat_history run agent msgs w).1 =
      calls w ++ [(name agent, head +:+ Spec.transcript msgs +:+ tail)]) ∧
  (∀ msgs, Step2.chat_text msgs = Spec.transcript msgs) ∧
  Step2.chat_text Fixture.fixed_log =
    "USER: need a login page" +:+ Py.nl +:+ Py.nl +:+
    "ASSISTANT: priority?" +:+ Py.nl +:+ Py.nl +:+
    "USER: high priority, by Friday".
Proof.
  split; [|split; [apply chat_text_transcript|reflexivity]].
  exists ("Based on the following chat conversation, create a ticket for our ticket system. "
          +:+ "Extract relevant information like the issue, priority, and any important details. "
          +:+ Py.nl +:+ Py.nl +:+ "CHAT HISTORY:" +:+ Py.nl).
  exists (Py.nl +:+ Py.nl
          +:+ "Please create a structured ticket with appropriate fields.").
  intros run agent msgs w.
  rewrite process_chat_history_calls. unfold Step2.prompt_of.
  rewrite chat_text_transcript. by rewrite !string_app_assoc.
Qed.

(** ** C5: no extraction without history *)

(** C5 (counterexample).  On an empty chat log the ticket page does not
    fail: it shows the warning and ends normally, no exception leaves it. *)
Lemma empty_history_is_not_a_failure :
  let r := Step2.main_async id false (Step2.structured_run Fixture.extractor)
             Fixture.uschi Fixture.w0 in
  State.log State.CHAT_AGENT_NAME (session Fixture.w0) = [] ∧
  r.2 = Done ∧
  r.2 ≠ Failed "EmptyHistory" ∧
  StWarning Step2.NO_MESSAGES ∈ page r.1.
Proof.
  vm_compute. repeat split; [discriminate|].
  apply list_elem_of_further, list_elem_of_here.
Qed.

(** C5 (amended).  When the chat log is empty, the ticket page shows the warning
    that no chat messages were found and ends there: no call is made to
    any agent and no ticket is shown. *)
Theorem empty_history_guard render_model_form back_button run ticket_creator w :
  State.log State.CHAT_AGENT_NAME (session w) = [] →
  let r := Step2.main_async render_model_form back_button run ticket_creator w in
  calls r.1 = calls w ∧
  page r.1 = page w ++
    [StTitle "🎫 EU-AI Act Analyse Tool - Ticket erstellen";
     StWarning Step2.NO_MESSAGES] ∧
  r.2 = (if back_button then SwitchPage "pages/step1.py" else Done).
Proof.
  intros Hlog r. subst r. unfold Step2.main_async.
  unfold State.log in Hlog. unfold State.chat_messages. simpl.
  destruct (State.getitem State.CHAT_AGENT_NAME (State.messages (session w)))
    as [l d]. simpl in Hlog. subst l.
  destruct back_button; simpl; by rewrite <- app_assoc.
Qed.

Lemma empty_history_guard_witness :
  let r := Step2.main_async id false (Step2.structured_run Fixture.extractor)
             Fixture.uschi Fixture.w0 in
  calls r.1 = [] ∧
  page r.1 = [StTitle "🎫 EU-AI Act Analyse Tool - Ticket erstellen";
              StWarning Step2.NO_MESSAGES] ∧
  r.2 = Done.
Proof.
  apply (empty_history_guard id false (Step2.structured_run Fixture.extractor)
           Fixture.uschi Fixture.w0).
  reflexivity.
Defined.

(** ** C6: fragments and the captured message *)

(** Neither capture function changes a log: the closures they connect are
    called by the signals and never awaited. *)
Lemma stream_response_session cb run_stream agent prompt w :
  session (Chat.stream_response cb run_stream agent prompt w).1.2 = session w.
Proof.
  unfold Chat.stream_response. destruct (run_stream prompt) as [script ending].
  simpl. by rewrite (proj1 (consume_stream_session _ _ _)).
Qed.

Lemma return_response_session cb run agent prompt w :
  session (Chat.return_response cb run agent prompt w).1.2 = session w.
Proof.
  unfold Chat.return_response. destruct (run prompt) as [script ending].
  simpl. by rewrite (proj1 (await_run_session _ _ _)).
Qed.

(** C6.  The claim needs the message of the stream to be captured into the
    agent's log, which [stream_response] sets out to do ("collect messages
    directly to state").  At a stream that completes, whose fragments
    concatenate to the content of the message the agent emits while the
    closure is connected, the sink has received the fragments in order and
    the log is still empty: the closure is a coroutine function that the
    signal calls without awaiting it. *)
Theorem stream_response_captures_nothing :
  let '(agent', w', out) :=
    Chat.stream_response 1 Fixture.stream_deltas Fixture.dieter "hi" Fixture.w0 in
  out = Py.Returned tt ∧
  sink_fragments (page w') = ["He"; "llo"] ∧
  emitted (Fixture.stream_deltas "hi").1 = [Fixture.hello] ∧
  concat_fragments (sink_fragments (page w')) = content Fixture.hello ∧
  message_sent (Chat.connect_collect 1 Fixture.dieter) = [1] ∧
  State.log State.CHAT_AGENT_NAME (session w') = [].
Proof. vm_compute. repeat split. Qed.

(** ** C7: the non-streaming variant *)



(** ** C8: the extracted record *)

(** C8 (counterexample).  After a successful extraction on the ticket
    page the record has been shown, and the session holds no record:
    [completed_form] is still absent and [form_data] is as before. *)
Lemma extracted_record_is_not_stored :
  let w := Fixture.with_chat_log Fixture.fixed_log in
  let r := Step2.process_chat_history (Step2.structured_run Fixture.extractor)
             Fixture.uschi Fixture.fixed_log w in
  let p := Step2.main_async id false (Step2.structured_run Fixture.extractor)
             Fixture.uschi w in
  r.2 = Py.Returned Fixture.ticket ∧
  State.completed_form (session r.1) = None ∧
  p.2 = Done ∧
  StModelForm Fixture.ticket ∈ page p.1 ∧
  State.completed_form (session p.1) = None ∧
  State.form_data (session p.1) = State.form_data (session w).
Proof. vm_compute. repeat split. set_solver. Qed.

(** C8 (amended).  When the extractor's output validates,
    [process_chat_history] returns the validated record to its caller
    after exactly one call to the extractor, and stores nothing: the form
    fields of the session, [completed_form] included, are as before. *)
Theorem extraction_returns_record raw_run agent msgs w script raw form :
  raw_run (Step2.prompt_of msgs) = (script, Py.Returned raw) →
  Config.model_validate raw = inr form →
  let r := Step2.process_chat_history (Step2.structured_run raw_run) agent msgs w in
  r.2 = Py.Returned form ∧
  calls r.1 = calls w ++ [(name agent, Step2.prompt_of msgs)] ∧
  State.completed_form (session r.1) = State.completed_form (session w) ∧
  State.form_data (session r.1) = State.form_data (session w).
Proof.
  intros Hrun Hval r. subst r.
  split; [|split; [apply process_chat_history_calls|]].
  - unfold Step2.process_chat_history, Step2.structured_run.
    by rewrite Hrun, Hval.
  - unfold Step2.process_chat_history.
    destruct (Step2.structured_run raw_run (Step2.prompt_of msgs)) as [sc en].
    simpl.
    by destruct (await_run_same_record agent sc
                   (called agent (Step2.prompt_of msgs) w)) as (-> & -> & _).
Qed.

Lemma extraction_returns_record_witness :
  let r := Step2.process_chat_history (Step2.structured_run Fixture.extractor)
             Fixture.uschi Fixture.fixed_log
             (Fixture.with_chat_log Fixture.fixed_log) in
  r.2 = Py.Returned Fixture.ticket ∧
  calls r.1 = [] ++ [(name Fixture.uschi, Step2.prompt_of Fixture.fixed_log)] ∧
  State.completed_form (session r.1) = None ∧
  State.form_data (session r.1) = ∅.
Proof.
  apply (extraction_returns_record Fixture.extractor Fixture.uschi
           Fixture.fixed_log (Fixture.with_chat_log Fixture.fixed_log)
           [] {[ "title" := Config.VStr "Login page" ]} Fixture.ticket).
  - reflexivity.
  - vm_compute. reflexivity.
Defined.

(** ** C9: logs of different agents *)

Lemma log_clear_eq key s : State.log key (State.clear_agent_messages key s) = [].
Proof.
  unfold State.clear_agent_messages. rewrite log_with_messages.
  by rewrite lookup_insert_eq.
Qed.

Lemma log_clear_ne key key' s :
  key ≠ key' → State.log key' (State.clear_agent_messages key s) = State.log key' s.
Proof.
  intros Hne. unfold State.clear_agent_messages.
  rewrite log_with_messages, log_unfold. by rewrite lookup_insert_ne.
Qed.

Lemma log_append_ne key key' msg s :
  key ≠ key' → State.log key' (State.append key msg s) = State.log key' s.
Proof.
  intros Hne. unfold State.append.
  pose proof (getitem_snd_ne key key' (State.messages s) Hne) as Hsnd.
  destruct (State.getitem key (State.messages s)) as [l d]. simpl in Hsnd.
  rewrite log_with_messages, log_unfold, <- Hsnd. by rewrite lookup_insert_ne.
Qed.

(** C9.  For two distinct agent names [a] and [b]: clearing the log of
    [a] empties it and leaves the log of [b] as it was; and no signal, no
    stream and no run of an agent named [a] changes the log of [b]. *)
Theorem agent_logs_isolated (a b : string) :
  a ≠ b →
  (∀ s, State.log a (State.clear_agent_messages a s) = [] ∧
        State.log b (State.clear_agent_messages a s) = State.log b s) ∧
  (∀ agent msg s, name agent = a →
        State.log b (Chat.collect_message agent msg s) = State.log b s) ∧
  (∀ msg s, State.log b (State.append a msg s) = State.log b s) ∧
  (∀ agent e w, name agent = a →
        State.log b (session (Chat.emit agent e w)) = State.log b (session w)) ∧
  (∀ cb run_stream agent prompt w, name agent = a →
        State.log b (session (Chat.stream_response cb run_stream agent prompt w).1.2)
        = State.log b (session w)) ∧
  (∀ cb run agent prompt w, name agent = a →
        State.log b (session (Chat.return_response cb run agent prompt w).1.2)
        = State.log b (session w)).
Proof.
  intros Hne. repeat split.
  - apply log_clear_eq.
  - by apply log_clear_ne.
  - intros agent msg s <-. by apply log_collect_message_ne.
  - intros msg s. by apply log_append_ne.
  - intros agent e w <-. by apply (await_run_log_ne agent [e] b w).
  - intros cb run_stream agent prompt w <-. unfold Chat.stream_response.
    destruct (run_stream prompt) as [script ending]. simpl.
    by rewrite consume_stream_log_ne.
  - intros cb run agent prompt w <-. unfold Chat.return_response.
    destruct (run prompt) as [script ending]. simpl.
    by rewrite await_run_log_ne.
Qed.

Lemma agent_logs_isolated_witness :
  (∀ s, State.log "Dieter" (State.clear_agent_messages "Dieter" s) = [] ∧
        State.log "Uschi" (State.clear_agent_messages "Dieter" s) =
        State.log "Uschi" s) ∧
  (∀ cb run_stream agent prompt w, name agent = "Dieter" →
        State.log "Uschi"
          (session (Chat.stream_response cb run_stream agent prompt w).1.2)
        = State.log "Uschi" (session w)).
Proof.
  destruct (agent_logs_isolated "Dieter" "Uschi") as (H1 & _ & _ & _ & H2 & _).
  - discriminate.
  - split; [exact H1|exact H2].
Defined.

(** ** C10: the defaults of the record schema *)

Lemma validate_field_absent raw f d :
  raw !! f = None → Config.assoc f Config.model_fields = Some (Some d) →
  Config.validate_field raw f = inr d.
Proof. intros Hraw Hd. unfold Config.validate_field. by rewrite Hraw, Hd. Qed.

Lemma validate_field_not_missing raw f g :
  f ∈ Config.model_fields.*1 → Config.validate_field raw f ≠ inl (Config.Missing g).
Proof.
  intros Hf. unfold Config.validate_field.
  destruct (raw !! f) as [[s|z|]|]; try done.
  simpl in Hf. set_unfold in Hf.
  by destruct Hf as [->|[->|[->|[->|[->|[]]]]]].
Qed.

(** C10.  Every field of [FormData] is declared with the empty string as
    default; validation never reports a missing field, whatever the
    extractor's output; and an output that fills none of the five fields
    validates to the record whose fields are all empty. *)
Theorem formdata_defaults :
  Config.model_fields.*1 =
    ["title"; "description"; "requirements"; "constraints"; "additional_info"] ∧
  Forall (fun f => f.2 = Some EmptyString) Config.model_fields ∧
  (∀ raw f, Config.model_validate raw ≠ inl (Config.Missing f)) ∧
  Config.model_validate ∅ = inr Fixture.empty_form ∧
  (∀ raw, (∀ f, f ∈ Config.model_fields.*1 → raw !! f = None) →
          Config.model_validate raw = inr Fixture.empty_form).
Proof.
  split; [done|]. split; [by repeat constructor|].
  split; [|split; [done|]].
  - intros raw f. unfold Config.model_validate.
    repeat match goal with
    | |- context [Config.validate_field raw ?g] =>
        let E := fresh "E" in
        destruct (Config.validate_field raw g) as [?|?] eqn:E;
          [intros [= ->]; revert E; apply validate_field_not_missing;
           simpl; set_solver|]
    end.
    done.
  - intros raw Hraw. unfold Config.model_validate.
    rewrite !(validate_field_absent raw _ EmptyString);
      try done; apply Hraw; simpl; set_solver.
Qed.

Lemma formdata_defaults_witness :
  Config.model_validate {[ "priority" := Config.VStr "high" ]} =
  inr Fixture.empty_form.
Proof.
  destruct formdata_defaults as (_ & _ & _ & _ & H).
  apply H. intros f Hf. simpl in Hf. set_unfold in Hf.
  by destruct Hf as [->|[->|[->|[->|[->|[]]]]]].
Defined.

(** * Further properties of the code *)

(** ** What a capture does to the log *)

Lemma stream_response_log_ne cb run_stream agent prompt w key :
  name agent ≠ key →
  State.log key (session (Chat.stream_response cb run_stream agent prompt w).1.2)
  = State.log key (session w).
Proof. intros _. by rewrite stream_response_session. Qed.

Lemma stream_response_calls cb run_stream agent prompt w :
  calls (Chat.stream_response cb run_stream agent prompt w).1.2 =
  calls w ++ [(name agent, prompt)].
Proof.
  unfold Chat.stream_response.
  destruct (run_stream prompt) as [script ending]. simpl.
  by destruct (consume_stream_same_record (Chat.connect_collect cb agent) script
                 (called (Chat.connect_collect cb agent) prompt w))
    as (_ & _ & ->).
Qed.

Lemma stream_response_ending cb run_stream agent prompt w :
  (Chat.stream_response cb run_stream agent prompt w).2 = (run_stream prompt).2.
Proof. unfold Chat.stream_response. by destruct (run_stream prompt). Qed.

(** X1.  [stream_response] and [return_response] append nothing: after
    the call every log, the agent's own included, is what it was before,
    whatever the agent emitted on its message signals while the closure
    was connected.  The closure is a coroutine function, and a signal
    calls its callbacks without awaiting them. *)
Theorem capture_appends_nothing cb run_stream run agent prompt w key :
  State.log key
    (session (Chat.stream_response cb run_stream agent prompt w).1.2) =
  State.log key (session w)
  ∧
  State.log key
    (session (Chat.return_response cb run agent prompt w).1.2) =
  State.log key (session w).
Proof. by rewrite stream_response_session, return_response_session. Qed.

(** X2.  A log without duplicates has none after a capture, whatever the
    agent emits and however the call ends. *)
Theorem capture_keeps_log_duplicate_free cb run_stream run agent prompt w :
  NoDup (State.log (name agent) (session w)) →
  NoDup (State.log (name agent)
           (session (Chat.stream_response cb run_stream agent prompt w).1.2)) ∧
  NoDup (State.log (name agent)
           (session (Chat.return_response cb run agent prompt w).1.2)).
Proof.
  intros Hnd. by rewrite stream_response_session, return_response_session.
Qed.

Lemma capture_keeps_log_duplicate_free_witness :
  NoDup (State.log (name Fixture.dieter)
           (session (Chat.stream_response 1 Fixture.stream_deltas Fixture.dieter
                       "hi" (Fixture.with_chat_log [Fixture.hello])).1.2)) ∧
  NoDup (State.log (name Fixture.dieter)
           (session (Chat.return_response 1 Fixture.run_hello Fixture.dieter
                       "hi" (Fixture.with_chat_log [Fixture.hello])).1.2)).
Proof.
  apply (capture_keeps_log_duplicate_free 1 Fixture.stream_deltas
           Fixture.run_hello Fixture.dieter "hi"
           (Fixture.with_chat_log [Fixture.hello])).
  vm_compute. apply NoDup_singleton.
Defined.

(** X3.  A capture never removes or reorders what is in the log: the log
    before is a prefix of the log after, and whatever was added was
    emitted by the agent during the call. *)
Theorem capture_only_extends_log cb run_stream agent prompt w :
  let before := State.log (name agent) (session w) in
  let after := State.log (name agent)
                 (session (Chat.stream_response cb run_stream agent prompt w).1.2) in
  before `prefix_of` after ∧
  after ⊆ before ++ emitted (run_stream prompt).1.
Proof.
  intros before after. subst before after. rewrite stream_response_session.
  split; [done|]. intros x Hx. apply elem_of_app. by left.
Qed.

(** ** Clearing and appending *)

Lemma log_append_eq key msg s :
  State.log key (State.append key msg s) = State.log key s ++ [msg].
Proof.
  unfold State.append.
  pose proof (getitem_fst key (State.messages s)) as Hfst.
  destruct (State.getitem key (State.messages s)) as [l d]. simpl in Hfst.
  rewrite log_with_messages, lookup_insert_eq, log_unfold. simpl. by rewrite Hfst.
Qed.

Lemma log_append key key' msg s :
  State.log key' (State.append key msg s) =
  if decide (key' = key) then State.log key' s ++ [msg] else State.log key' s.
Proof.
  destruct (decide (key' = key)) as [->|Hne]; [apply log_append_eq|].
  by apply log_append_ne.
Qed.

Lemma append_other_fields key msg s :
  State.form_data (State.append key msg s) = State.form_data s ∧
  State.completed_form (State.append key msg s) = State.completed_form s.
Proof.
  unfold State.append. by destruct (State.getitem key (State.messages s)).
Qed.

Lemma log_getitem key key' s :
  State.log key' (State.with_messages s (State.getitem key (State.messages s)).2)
  = State.log key' s.
Proof.
  rewrite log_with_messages, log_unfold. unfold State.getitem.
  destruct (State.messages s !! key) eqn:E; simpl; [done|].
  destruct (decide (key = key')) as [<-|Hne].
  - by rewrite lookup_insert_eq, E.
  - by rewrite lookup_insert_ne.
Qed.



(** ** The chat widget *)

Section ChatUiFacts.

Implicit Types (agent : Agent) (w : world) (inp : ChatUi.input).

Lemma chatui_display_session msgs w :
  session (ChatUi.display_history msgs w) = session w ∧
  calls (ChatUi.display_history msgs w) = calls w.
Proof. revert w. induction msgs as [|m msgs IH]; intros w; simpl; [done|]. by rewrite !(proj1 (IH _)), !(proj2 (IH _)). Qed.

Lemma chatui_display_page msgs w :
  page (ChatUi.display_history msgs w) =
  page w ++ (m ← msgs; [StChatMessage (role_str (msg_role m)); StMarkdown (content m)]).
Proof.
  revert w. induction msgs as [|m msgs IH]; intros w; simpl.
  - by rewrite app_nil_r.
  - rewrite IH. simpl. by rewrite <- !app_assoc.
Qed.

(** The part of [create_chat_ui] that runs when a prompt was entered. *)
Lemma create_chat_ui_prompt inp cb run_stream agent w prompt :
  ChatUi.chat_input inp = Some prompt → prompt ≠ EmptyString →
  ∃ w1,
    (∀ key, State.log key (session w1) =
            State.log key
              (State.append (name agent)
                 (mkChatMessage (ChatUi.fresh_id inp) prompt user) (session w))) ∧
    calls w1 = calls w ∧
    ChatUi.create_chat_ui inp cb run_stream agent w =
      match Chat.stream_response cb run_stream agent prompt w1 with
      | (agent', w', Py.Returned _) => (agent', w', Done)
      | (agent', w', Py.Raised e) =>
          (agent', show (StError ("Ein Fehler ist aufgetreten: " +:+ e)) w', Done)
      | (agent', w', Py.Cancelled) => (agent', w', Interrupted)
      end.
Proof.
  intros Hin Hne. unfold ChatUi.create_chat_ui.
  pose proof (fun key => log_getitem (name agent) key (session w)) as Hget.
  destruct (State.getitem (name agent) (State.messages (session w))) as [l d].
  simpl in Hget.
  rewrite Hin. destruct prompt as [|c p]; [done|].
  eexists. split; [|split; [|reflexivity]].
  - intros key. simpl. rewrite (proj1 (chatui_display_session _ _)). simpl.
    by rewrite !log_append, Hget.
  - simpl. by rewrite (proj2 (chatui_display_session _ _)).
Qed.

End ChatUiFacts.

(** X5.  In [create_chat_ui] an exception of the stream does not escape:
    the widget shows the error text as its last entry and ends normally,
    a cancellation does escape; in every case the signals of the agent
    hold the callbacks they held before, and the user's message is in
    the log. *)
Theorem create_chat_ui_contains_errors inp cb run_stream agent w prompt :
  ChatUi.chat_input inp = Some prompt → prompt ≠ EmptyString →
  let r := ChatUi.create_chat_ui inp cb run_stream agent w in
  r.2 = match (run_stream prompt).2 with
        | Py.Cancelled => Interrupted
        | _ => Done
        end ∧
  (∀ e, (run_stream prompt).2 = Py.Raised e →
        last (page r.1.2) = Some (StError ("Ein Fehler ist aufgetreten: " +:+ e))) ∧
  message_sent r.1.1 ≡ₚ message_sent agent ∧
  message_received r.1.1 ≡ₚ message_received agent ∧
  tool_used r.1.1 = tool_used agent ∧
  mkChatMessage (ChatUi.fresh_id inp) prompt user
    ∈ State.log (name agent) (session r.1.2).
Proof.
  intros Hin Hne r. subst r.
  destruct (create_chat_ui_prompt inp cb run_stream agent w prompt Hin Hne)
    as (w1 & Hlog & Hcalls & ->).
  pose proof (stream_response_cleanup cb run_stream agent prompt w1) as Hclean.
  pose proof (stream_response_ending cb run_stream agent prompt w1) as Hend.
  pose proof (stream_response_session cb run_stream agent prompt w1) as Hl.
  destruct (Chat.stream_response cb run_stream agent prompt w1)
    as [[agent' w'] out]. simpl in *.
  assert (mkChatMessage (ChatUi.fresh_id inp) prompt user
            ∈ State.log (name agent) (session w')) as Hmem.
  { rewrite Hl, Hlog, log_append_eq. apply elem_of_app. right.
    apply list_elem_of_here. }
  destruct Hclean as (Hs & Hr & Ht). rewrite <- Hend.
  destruct out as [u|e|]; simpl; repeat split; try done.
  intros e' [= ->]. by rewrite last_snoc.
Qed.

Lemma create_chat_ui_contains_errors_witness :
  let r := ChatUi.create_chat_ui
             {| ChatUi.chat_input := Some "hi"; ChatUi.fresh_id := "u1" |}
             1 Fixture.stream_fails Fixture.dieter Fixture.w0 in
  r.2 = Done ∧
  last (page r.1.2) =
    Some (StError ("Ein Fehler ist aufgetreten: " +:+ "connection refused")).
Proof.
  destruct (create_chat_ui_contains_errors
              {| ChatUi.chat_input := Some "hi"; ChatUi.fresh_id := "u1" |}
              1 Fixture.stream_fails Fixture.dieter Fixture.w0 "hi")
    as (H1 & H2 & _); [reflexivity|discriminate|].
  split; [exact H1|]. apply H2. reflexivity.
Defined.

(** X6.  Without a prompt [create_chat_ui] only shows the history, one
    bubble per message in log order: it calls no agent, connects nothing
    and leaves every log as it is. *)
Theorem create_chat_ui_idle inp cb run_stream agent w :
  ChatUi.chat_input inp = None ∨ ChatUi.chat_input inp = Some EmptyString →
  let r := ChatUi.create_chat_ui inp cb run_stream agent w in
  r.1.1 = agent ∧ r.2 = Done ∧ calls r.1.2 = calls w ∧
  (∀ key, State.log key (session r.1.2) = State.log key (session w)) ∧
  page r.1.2 =
    page w ++ (m ← State.log (name agent) (session w);
               [StChatMessage (role_str (msg_role m)); StMarkdown (content m)]).
Proof.
  intros Hin r. subst r. unfold ChatUi.create_chat_ui.
  pose proof (fun key => log_getitem (name agent) key (session w)) as Hget.
  unfold State.log at 3.
  destruct (State.getitem (name agent) (State.messages (session w))) as [l d].
  simpl in Hget.
  destruct Hin as [Hin|Hin]; rewrite Hin; simpl;
    rewrite (proj1 (chatui_display_session _ _)),
      (proj2 (chatui_display_session _ _)), chatui_display_page;
    repeat split; try done; intros key; apply Hget.
Qed.

Lemma create_chat_ui_idle_witness :
  (ChatUi.create_chat_ui
     {| ChatUi.chat_input := None; ChatUi.fresh_id := "u1" |}
     1 Fixture.stream_deltas Fixture.dieter
     (Fixture.with_chat_log [Fixture.hello])).1.1 = Fixture.dieter.
Proof.
  apply (create_chat_ui_idle
           {| ChatUi.chat_input := None; ChatUi.fresh_id := "u1" |}
           1 Fixture.stream_deltas Fixture.dieter
           (Fixture.with_chat_log [Fixture.hello])).
  left. reflexivity.
Defined.

(** X7.  With a prompt, [create_chat_ui] appends the user's message to the
    agent's log unconditionally and calls the stream exactly once;
    afterwards the log is the log before followed by the user's message
    and nothing else, however the stream ends and whatever the agent
    emits; the logs of other agents are untouched. *)
Theorem create_chat_ui_records_exchange inp cb run_stream agent w prompt :
  ChatUi.chat_input inp = Some prompt → prompt ≠ EmptyString →
  let r := ChatUi.create_chat_ui inp cb run_stream agent w in
  State.log (name agent) (session r.1.2) =
    State.log (name agent) (session w) ++
      [mkChatMessage (ChatUi.fresh_id inp) prompt user] ∧
  calls r.1.2 = calls w ++ [(name agent, prompt)] ∧
  (∀ key, key ≠ name agent →
     State.log key (session r.1.2) = State.log key (session w)).
Proof.
  intros Hin Hne r. subst r.
  destruct (create_chat_ui_prompt inp cb run_stream agent w prompt Hin Hne)
    as (w1 & Hlog & Hcalls & ->).
  pose proof (stream_response_calls cb run_stream agent prompt w1) as Hc.
  pose proof (stream_response_session cb run_stream agent prompt w1) as Hl.
  destruct (Chat.stream_response cb run_stream agent prompt w1)
    as [[agent' w'] out]. simpl in *.
  assert (State.log (name agent) (session w') =
          State.log (name agent) (session w) ++
            [mkChatMessage (ChatUi.fresh_id inp) prompt user]) as H1.
  { by rewrite Hl, Hlog, log_append_eq. }
  assert (calls w' = calls w ++ [(name agent, prompt)]) as H2 by congruence.
  assert (∀ key, key ≠ name agent →
            State.log key (session w') = State.log key (session w)) as H3.
  { intros key Hk. rewrite Hl, Hlog. by apply log_append_ne. }
  by destruct out.
Qed.

Lemma create_chat_ui_records_exchange_witness :
  calls (ChatUi.create_chat_ui
           {| ChatUi.chat_input := Some "hi"; ChatUi.fresh_id := "u1" |}
           1 Fixture.stream_deltas Fixture.dieter Fixture.w0).1.2 =
  [] ++ [(name Fixture.dieter, "hi")].
Proof.
  apply (create_chat_ui_records_exchange
           {| ChatUi.chat_input := Some "hi"; ChatUi.fresh_id := "u1" |}
           1 Fixture.stream_deltas Fixture.dieter Fixture.w0 "hi");
    [reflexivity|discriminate].
Defined.

(** ** The chat page *)

Section Step1Facts.

Implicit Types (agent : Agent) (w : world) (inp : Step1.input)
  (script : list event).

Lemma tool_renders_app p q : tool_renders (p ++ q) = tool_renders p ++ tool_renders q.
Proof. apply omap_app. Qed.

Lemma fold_show_tool_calls ts w :
  session (fold_left (fun w t => show (StToolCall t) w) ts w) = session w ∧
  calls (fold_left (fun w t => show (StToolCall t) w) ts w) = calls w ∧
  page (fold_left (fun w t => show (StToolCall t) w) ts w) =
    page w ++ map StToolCall ts.
Proof.
  revert w. induction ts as [|t ts IH]; intros w; simpl.
  - by rewrite app_nil_r.
  - destruct (IH (show (StToolCall t) w)) as (-> & -> & ->). simpl.
    by rewrite <- app_assoc.
Qed.

Lemma tool_renders_map ts : tool_renders (map StToolCall ts) = ts.
Proof. induction ts as [|t ts IH]; [done|]. simpl. by rewrite IH. Qed.

Lemma step1_display_history msgs w :
  session (Step1.display_history msgs w) = session w ∧
  calls (Step1.display_history msgs w) = calls w ∧
  tool_renders (page (Step1.display_history msgs w)) =
    tool_renders (page w) ++ (m ← msgs; tool_calls m).
Proof.
  revert w. induction msgs as [|m msgs IH]; intros w; simpl.
  - by rewrite app_nil_r.
  - destruct (IH (fold_left (fun w t => show (StToolCall t) w) (tool_calls m)
                    (show (StMarkdown (content m))
                       (show (StChatMessage (role_str (msg_role m))) w))))
      as (-> & -> & ->).
    destruct (fold_show_tool_calls (tool_calls m)
                (show (StMarkdown (content m))
                   (show (StChatMessage (role_str (msg_role m))) w)))
      as (-> & -> & ->).
    simpl. rewrite !tool_renders_app, tool_renders_map. simpl.
    by rewrite !app_nil_r, <- app_assoc.
Qed.

(** With no closure on the message signals a call leaves the session
    alone. *)
Lemma await_run_quiet agent script w :
  message_sent agent = [] → message_received agent = [] →
  session (Chat.await_run agent script w) = session w.
Proof. intros _ _. apply await_run_session. Qed.

Lemma fold_show_replicate (t : ToolCallInfo) (cbs : list nat) w :
  page (fold_left (fun w _ => show (StToolCall t) w) cbs w) =
  page w ++ replicate (length cbs) (StToolCall t).
Proof.
  revert w. induction cbs as [|c cbs IH]; intros w; simpl.
  - by rewrite app_nil_r.
  - rewrite IH. simpl. by rewrite <- app_assoc.
Qed.

Lemma tool_renders_replicate n t :
  tool_renders (replicate n (StToolCall t)) = replicate n t.
Proof. induction n as [|n IH]; [done|]. simpl. by rewrite IH. Qed.

Lemma emit_tool_renders agent e w :
  tool_renders (page (Chat.emit agent e w)) =
  tool_renders (page w) ++
    (t ← tools_used [e]; replicate (length (tool_used agent)) t).
Proof.
  destruct e as [c|m|m|t].
  - simpl. by rewrite app_nil_r.
  - rewrite emit_message_sent. simpl. by rewrite app_nil_r.
  - rewrite emit_message_received. simpl. by rewrite app_nil_r.
  - simpl. by rewrite fold_show_replicate, tool_renders_app,
      tool_renders_replicate, app_nil_r.
Qed.

Lemma tools_used_cons e script :
  tools_used (e :: script) = tools_used [e] ++ tools_used script.
Proof. unfold tools_used. simpl. by destruct e. Qed.

Lemma await_run_tool_renders agent script w :
  tool_renders (page (Chat.await_run agent script w)) =
  tool_renders (page w) ++
    (t ← tools_used script; replicate (length (tool_used agent)) t).
Proof.
  revert w. induction script as [|e script IH]; intros w.
  - simpl. by rewrite app_nil_r.
  - change (Chat.await_run agent (e :: script) w)
      with (Chat.await_run agent script (Chat.emit agent e w)).
    rewrite IH, emit_tool_renders, (tools_used_cons e script), bind_app.
    by rewrite <- app_assoc.
Qed.

(** The part of the chat page that runs when a prompt was entered and no
    button was pressed. *)
Lemma step1_prompt inp cb run agent w prompt script ending :
  Step1.ticket_button inp = false →
  Step1.new_conversation_button inp = false →
  Step1.chat_input inp = Some prompt → prompt ≠ EmptyString →
  run prompt = (script, ending) →
  ∃ w1,
    (∀ key, State.log key (session w1) =
            State.log key
              (State.append State.CHAT_AGENT_NAME
                 (mkChatMessage (Step1.fresh_id inp) prompt user) (session w))) ∧
    calls w1 = calls w ++ [(name agent, prompt)] ∧
    tool_renders (page w1) =
      tool_renders (page w) ++
        (m ← State.log State.CHAT_AGENT_NAME (session w); tool_calls m) ∧
    Step1.main_async inp cb run agent w =
      let w2 := Chat.await_run (Step1.connect_render cb agent) script w1 in
      match ending with
      | Py.Returned full_response =>
          (Step1.disconnect_render cb (Step1.connect_render cb agent),
           on_session (State.append State.CHAT_AGENT_NAME full_response)
             (show (StMarkdown (content full_response)) w2), Done)
      | Py.Raised e =>
          (Step1.connect_render cb agent,
           show (StError ("Ein Fehler ist aufgetreten: " +:+ e)) w2, Done)
      | Py.Cancelled => (Step1.connect_render cb agent, w2, Interrupted)
      end.
Proof.
  intros Ht Hn Hin Hne Hrun. unfold Step1.main_async. rewrite Ht, Hn, Hin.
  unfold State.chat_messages. simpl.
  pose proof (fun key => log_getitem State.CHAT_AGENT_NAME key (session w)) as Hget.
  unfold State.log at 3.
  destruct (State.getitem State.CHAT_AGENT_NAME (State.messages (session w)))
    as [l d]. simpl in Hget.
  destruct prompt as [|c p]; [done|]. rewrite Hrun.
  eexists. split; [|split; [|split; [|reflexivity]]].
  - intros key. simpl.
    rewrite (proj1 (step1_display_history _ _)). simpl.
    by rewrite !log_append, Hget.
  - simpl. by rewrite (proj1 (proj2 (step1_display_history _ _))).
  - simpl. rewrite !tool_renders_app.
    rewrite (proj2 (proj2 (step1_display_history _ _))). simpl.
    rewrite tool_renders_app. simpl. by rewrite !app_nil_r.
Qed.

End Step1Facts.

(** X8.  On the chat page, when the agent has no closure on its message
    signals and the call returns, the chat log grows by exactly the
    user's message and the response, in that order, appended
    unconditionally; one call is made, [render] is disconnected again,
    and the logs of other agents are untouched. *)
Theorem step1_exchange_recorded inp cb run agent w prompt script full_response :
  Step1.ticket_button inp = false →
  Step1.new_conversation_button inp = false →
  Step1.chat_input inp = Some prompt → prompt ≠ EmptyString →
  run prompt = (script, Py.Returned full_response) →
  message_sent agent = [] → message_received agent = [] →
  let r := Step1.main_async inp cb run agent w in
  r.2 = Done ∧
  State.log State.CHAT_AGENT_NAME (session r.1.2) =
    State.log State.CHAT_AGENT_NAME (session w) ++
      [mkChatMessage (Step1.fresh_id inp) prompt user; full_response] ∧
  (∀ key, key ≠ State.CHAT_AGENT_NAME →
     State.log key (session r.1.2) = State.log key (session w)) ∧
  calls r.1.2 = calls w ++ [(name agent, prompt)] ∧
  tool_used r.1.1 ≡ₚ tool_used agent.
Proof.
  intros Ht Hn Hin Hne Hrun Hs Hr r. subst r.
  destruct (step1_prompt inp cb run agent w prompt script _ Ht Hn Hin Hne Hrun)
    as (w1 & Hlog & Hcalls & _ & ->). simpl.
  split; [done|].
  rewrite (await_run_quiet (Step1.connect_render cb agent)) by done.
  split; [|split; [|split]].
  - by rewrite log_append_eq, Hlog, log_append_eq, <- app_assoc.
  - intros key Hk. rewrite log_append_ne by done. rewrite Hlog.
    by apply log_append_ne.
  - by destruct (await_run_same_record (Step1.connect_render cb agent) script w1)
      as (_ & _ & ->).
  - apply disconnect_connect.
Qed.

Lemma step1_exchange_recorded_witness :
  State.log State.CHAT_AGENT_NAME
    (session (Step1.main_async (Fixture.prompt_input "hi") 7 Fixture.run_hello
                Fixture.dieter Fixture.w0).1.2) =
  State.log State.CHAT_AGENT_NAME (session Fixture.w0) ++
    [mkChatMessage "u1" "hi" user; Fixture.hello].
Proof.
  apply (step1_exchange_recorded (Fixture.prompt_input "hi") 7 Fixture.run_hello
           Fixture.dieter Fixture.w0 "hi" [MessageSent Fixture.hello]
           Fixture.hello); try reflexivity.
  discriminate.
Defined.

(** X9.  On the chat page, when the call raises, the user's message stays
    in the chat log without a response after it, and the page ends
    normally with the error text as its last entry. *)
Theorem step1_failure_keeps_user_message inp cb run agent w prompt script e :
  Step1.ticket_button inp = false →
  Step1.new_conversation_button inp = false →
  Step1.chat_input inp = Some prompt → prompt ≠ EmptyString →
  run prompt = (script, Py.Raised e) →
  message_sent agent = [] → message_received agent = [] →
  let r := Step1.main_async inp cb run agent w in
  r.2 = Done ∧
  State.log State.CHAT_AGENT_NAME (session r.1.2) =
    State.log State.CHAT_AGENT_NAME (session w) ++
      [mkChatMessage (Step1.fresh_id inp) prompt user] ∧
  last (page r.1.2) = Some (StError ("Ein Fehler ist aufgetreten: " +:+ e)).
Proof.
  intros Ht Hn Hin Hne Hrun Hs Hr r. subst r.
  destruct (step1_prompt inp cb run agent w prompt script _ Ht Hn Hin Hne Hrun)
    as (w1 & Hlog & _ & _ & ->). simpl.
  split; [done|].
  rewrite (await_run_quiet (Step1.connect_render cb agent)) by done.
  split; [by rewrite Hlog, log_append_eq|]. by rewrite last_snoc.
Qed.

Lemma step1_failure_keeps_user_message_witness :
  State.log State.CHAT_AGENT_NAME
    (session (Step1.main_async (Fixture.prompt_input "hi") 7 Fixture.run_fails
                Fixture.dieter Fixture.w0).1.2) =
  State.log State.CHAT_AGENT_NAME (session Fixture.w0) ++
    [mkChatMessage "u1" "hi" user].
Proof.
  apply (step1_failure_keeps_user_message (Fixture.prompt_input "hi") 7
           Fixture.run_fails Fixture.dieter Fixture.w0 "hi" []
           "connection refused"); try reflexivity.
  discriminate.
Defined.

(** X10.  The buttons of the chat page are handled before
    [State.initialize].  With the ticket button the page is left with the
    session as it is.  With the new-conversation button, on a session
    without agents the page raises [AttributeError]; on a session that
    holds the chat agent and the logs, the chat agent's log becomes the
    empty list, every other log and every other key stays, and the page
    is rerun.  In each case a prompt entered at the same time is dropped
    without any call to the agent. *)
Theorem step1_buttons_before_initialize inp cb run chat_agent
    (s : StateInit.session_state) pg cs :
  (Step1.ticket_button inp = true →
   Step1Session.main_async inp cb run chat_agent s pg cs =
     Step1Session.Leaves s (SwitchPage "pages/step2.py")) ∧
  (Step1.ticket_button inp = false →
   Step1.new_conversation_button inp = true →
   (StateInit.agents s = None →
    Step1Session.main_async inp cb run chat_agent s pg cs =
      Step1Session.Raises "AttributeError: agents") ∧
   (∀ a d, StateInit.chat_agent s = Py.Returned a →
           StateInit.messages s = Some d →
      ∃ s', Step1Session.main_async inp cb run chat_agent s pg cs =
              Step1Session.Leaves s' Rerun ∧
            StateInit.messages s' = Some (<[StateInit.agent_name a := []]> d) ∧
            (∀ key, key ≠ StateInit.agent_name a →
               (<[StateInit.agent_name a := []]> d) !! key = d !! key) ∧
            StateInit.agents s' = StateInit.agents s ∧
            StateInit.form_data s' = StateInit.form_data s ∧
            StateInit.agent_tools s' = StateInit.agent_tools s ∧
            StateInit.completed_form s' = StateInit.completed_form s)).
Proof.
  split.
  - intros Ht. unfold Step1Session.main_async. by rewrite Ht.
  - intros Ht Hn. unfold Step1Session.main_async. rewrite Ht, Hn. split.
    + by intros ->.
    + intros a d Ha Hd. unfold StateInit.chat_agent in Ha.
      destruct (StateInit.agents s) as [agents|] eqn:Hagents; [|done].
      destruct (agents !! State.CHAT_AGENT_NAME) as [a'|]; [|done].
      injection Ha as ->. rewrite Hd. eexists. split; [reflexivity|].
      repeat split; try done. intros key Hk. by rewrite lookup_insert_ne.
Qed.

Lemma step1_buttons_before_initialize_witness :
  Step1Session.main_async
    {| Step1.ticket_button := false; Step1.new_conversation_button := true;
       Step1.chat_input := Some "hi"; Step1.fresh_id := "u1" |}
    7 Fixture.run_hello Fixture.dieter
    {| StateInit.agents := None; StateInit.form_data := None;
       StateInit.messages := None; StateInit.agent_tools := None;
       StateInit.completed_form := None |} [] []
  = Step1Session.Raises "AttributeError: agents".
Proof.
  destruct (step1_buttons_before_initialize
              {| Step1.ticket_button := false;
                 Step1.new_conversation_button := true;
                 Step1.chat_input := Some "hi"; Step1.fresh_id := "u1" |}
              7 Fixture.run_hello Fixture.dieter
              {| StateInit.agents := None; StateInit.form_data := None;
                 StateInit.messages := None; StateInit.agent_tools := None;
                 StateInit.completed_form := None |} [] []) as [_ H].
  destruct H as [H _]; [reflexivity|reflexivity|].
  apply H. reflexivity.
Defined.

(** X11.  On the chat page every tool call the agent announces during the
    call is rendered once for each closure connected to [tool_used]: once
    for the [render] of this run and once more for every closure already
    connected before it, for instance left over from failed runs. *)
Theorem step1_tool_calls_rendered_per_listener inp cb run agent w prompt :
  Step1.ticket_button inp = false →
  Step1.new_conversation_button inp = false →
  Step1.chat_input inp = Some prompt → prompt ≠ EmptyString →
  tool_renders (page (Step1.main_async inp cb run agent w).1.2) =
    tool_renders (page w) ++
    (m ← State.log State.CHAT_AGENT_NAME (session w); tool_calls m) ++
    (t ← tools_used (run prompt).1; replicate (S (length (tool_used agent))) t).
Proof.
  intros Ht Hn Hin Hne. destruct (run prompt) as [script ending] eqn:Hrun.
  destruct (step1_prompt inp cb run agent w prompt script ending Ht Hn Hin Hne Hrun)
    as (w1 & _ & _ & Hp & ->). simpl.
  assert (tool_renders
            (page (Chat.await_run (Step1.connect_render cb agent) script w1)) =
          tool_renders (page w) ++
          (m ← State.log State.CHAT_AGENT_NAME (session w); tool_calls m) ++
          (t ← tools_used script; replicate (S (length (tool_used agent))) t))
    as Hrender.
  { rewrite await_run_tool_renders, Hp. simpl. unfold Signal.connect.
    rewrite length_app. simpl.
    by rewrite Nat.add_1_r, <- app_assoc. }
  destruct ending as [full|e|]; simpl; [| |done].
  - by rewrite tool_renders_app, app_nil_r.
  - by rewrite tool_renders_app, app_nil_r.
Qed.

Lemma step1_tool_calls_rendered_per_listener_witness :
  tool_renders
    (page (Step1.main_async (Fixture.prompt_input "hi") 7 Fixture.run_hello
             Fixture.dieter Fixture.w0).1.2) =
  tool_renders (page Fixture.w0) ++
  (m ← State.log State.CHAT_AGENT_NAME (session Fixture.w0); tool_calls m) ++
  (t ← tools_used (Fixture.run_hello "hi").1;
   replicate (S (length (tool_used Fixture.dieter))) t).
Proof.
  apply (step1_tool_calls_rendered_per_listener (Fixture.prompt_input "hi") 7
           Fixture.run_hello Fixture.dieter Fixture.w0 "hi"); try reflexivity.
  discriminate.
Defined.

(** ** The ticket page *)

Section Step2Facts.

Variable render_model_form : Config.FormData → Config.FormData.

Implicit Types (agent : Agent) (w : world) (script : list event).

Lemma forms_shown_app p q : forms_shown (p ++ q) = forms_shown p ++ forms_shown q.
Proof. apply omap_app. Qed.

Lemma downloads_offered_app p q :
  downloads_offered (p ++ q) = downloads_offered p ++ downloads_offered q.
Proof. apply omap_app. Qed.

Lemma await_run_forms agent script w :
  forms_shown (page (Chat.await_run agent script w)) = forms_shown (page w) ∧
  downloads_offered (page (Chat.await_run agent script w)) =
    downloads_offered (page w).
Proof.
  apply (await_run_invariant
           (fun y => forms_shown (page y) = forms_shown (page w) ∧
                     downloads_offered (page y) = downloads_offered (page w)));
    [|done]; intros ? y [H1 H2]; simpl.
  by rewrite forms_shown_app, downloads_offered_app, H1, H2, !app_nil_r.
Qed.

Lemma process_chat_history_ending run agent msgs w :
  (Step2.process_chat_history run agent msgs w).2 = (run (Step2.prompt_of msgs)).2.
Proof.
  unfold Step2.process_chat_history. by destruct (run (Step2.prompt_of msgs)).
Qed.

Lemma process_chat_history_world run agent msgs w :
  (Step2.process_chat_history run agent msgs w).1 =
  Chat.await_run agent (run (Step2.prompt_of msgs)).1
    (called agent (Step2.prompt_of msgs) w).
Proof.
  unfold Step2.process_chat_history. by destruct (run (Step2.prompt_of msgs)).
Qed.

(** The ticket page on a chat log that is not empty. *)
Lemma step2_nonempty back_button run agent w :
  State.log State.CHAT_AGENT_NAME (session w) ≠ [] →
  ∃ w1,
    (∀ key, State.log key (session w1) = State.log key (session w)) ∧
    calls w1 = calls w ∧
    forms_shown (page w1) = forms_shown (page w) ∧
    downloads_offered (page w1) = downloads_offered (page w) ∧
    Step2.main_async render_model_form back_button run agent w =
      match Step2.process_chat_history run agent
              (State.log State.CHAT_AGENT_NAME (session w)) w1 with
      | (w2, Py.Returned ticket_data) =>
          let w3 := show (StDownloadButton
                            (Step2.ticket_text (render_model_form ticket_data)))
                      (show (StModelForm ticket_data)
                         (show (StSubheader "Generiertes Ticket") w2)) in
          if back_button then (w3, SwitchPage "pages/step1.py") else (w3, Done)
      | (w2, Py.Raised e) => (w2, Failed e)
      | (w2, Py.Cancelled) => (w2, Interrupted)
      end.
Proof.
  intros Hne. unfold Step2.main_async, State.chat_messages. simpl.
  pose proof (fun key => log_getitem State.CHAT_AGENT_NAME key (session w)) as Hget.
  unfold State.log in Hne |- * at 3.
  destruct (State.getitem State.CHAT_AGENT_NAME (State.messages (session w)))
    as [l d]. simpl in *.
  destruct l as [|m l]; [done|].
  eexists. split; [|split; [|split; [|split; [|reflexivity]]]]; simpl; try done.
  - by rewrite forms_shown_app, app_nil_r.
  - by rewrite downloads_offered_app, app_nil_r.
Qed.

End Step2Facts.

(** X12.  [process_chat_history] has no guard of its own: on an empty list
    of messages it still calls the agent exactly once, with a prompt
    whose transcript part is empty, and hands back what the agent
    returns. *)
Theorem process_chat_history_unguarded run agent w :
  let r := Step2.process_chat_history run agent [] w in
  Step2.chat_text [] = EmptyString ∧
  calls r.1 = calls w ++ [(name agent, Step2.prompt_of [])] ∧
  r.2 = (run (Step2.prompt_of [])).2.
Proof.
  intros r. subst r. split; [done|].
  split; [apply process_chat_history_calls|apply process_chat_history_ending].
Qed.

(** X13.  On a chat log that is not empty, when the extractor returns a
    record, the ticket page has called the extractor exactly once, with
    the prompt built from the whole log; it shows the form of that record
    and offers for download the text of the record as edited in the form;
    the chat log itself is unchanged when the extractor is another agent
    than the chat agent. *)
Theorem step2_success render_model_form back_button run agent w script ticket :
  State.log State.CHAT_AGENT_NAME (session w) ≠ [] →
  run (Step2.prompt_of (State.log State.CHAT_AGENT_NAME (session w)))
    = (script, Py.Returned ticket) →
  name agent ≠ State.CHAT_AGENT_NAME →
  let r := Step2.main_async render_model_form back_button run agent w in
  r.2 = (if back_button then SwitchPage "pages/step1.py" else Done) ∧
  calls r.1 = calls w ++
    [(name agent, Step2.prompt_of (State.log State.CHAT_AGENT_NAME (session w)))] ∧
  forms_shown (page r.1) = forms_shown (page w) ++ [ticket] ∧
  downloads_offered (page r.1) =
    downloads_offered (page w) ++ [Step2.ticket_text (render_model_form ticket)] ∧
  State.log State.CHAT_AGENT_NAME (session r.1) =
    State.log State.CHAT_AGENT_NAME (session w).
Proof.
  intros Hne Hrun Hname r. subst r.
  destruct (step2_nonempty render_model_form back_button run agent w Hne)
    as (w1 & Hlog & Hcalls & Hforms & Hdown & ->).
  pose proof (process_chat_history_calls run agent
                (State.log State.CHAT_AGENT_NAME (session w)) w1) as Hc.
  pose proof (process_chat_history_ending run agent
                (State.log State.CHAT_AGENT_NAME (session w)) w1) as He.
  pose proof (process_chat_history_world run agent
                (State.log State.CHAT_AGENT_NAME (session w)) w1) as Hw.
  destruct (Step2.process_chat_history run agent
              (State.log State.CHAT_AGENT_NAME (session w)) w1) as [w2 out].
  simpl in *. rewrite Hrun in He, Hw. simpl in *. subst out.
  assert (State.log State.CHAT_AGENT_NAME (session w2) =
          State.log State.CHAT_AGENT_NAME (session w)) as Hl.
  { rewrite Hw, await_run_log_ne by done. apply Hlog. }
  assert (forms_shown (page w2) = forms_shown (page w) ∧
          downloads_offered (page w2) = downloads_offered (page w)) as [Hf Hd].
  { rewrite Hw. destruct (await_run_forms agent script
             (called agent (Step2.prompt_of
                (State.log State.CHAT_AGENT_NAME (session w))) w1)) as [-> ->].
    done. }
  destruct back_button; simpl;
    rewrite !forms_shown_app, !downloads_offered_app, Hf, Hd, Hc, Hcalls; simpl;
    by rewrite ?app_nil_r.
Qed.

Lemma step2_success_witness :
  forms_shown
    (page (Step2.main_async id false (Step2.structured_run Fixture.extractor)
             Fixture.uschi (Fixture.with_chat_log Fixture.fixed_log)).1) =
  forms_shown (page (Fixture.with_chat_log Fixture.fixed_log)) ++ [Fixture.ticket].
Proof.
  apply (step2_success id false (Step2.structured_run Fixture.extractor)
           Fixture.uschi (Fixture.with_chat_log Fixture.fixed_log) []
           Fixture.ticket).
  - vm_compute. discriminate.
  - vm_compute. reflexivity.
  - discriminate.
Defined.

(** X14.  The ticket page has no error handler: when the extractor raises,
    or its output fails validation, the exception leaves the page after
    the one call, and neither a form nor a download is shown. *)
Theorem step2_failure_propagates render_model_form back_button run agent w script e :
  State.log State.CHAT_AGENT_NAME (session w) ≠ [] →
  run (Step2.prompt_of (State.log State.CHAT_AGENT_NAME (session w)))
    = (script, Py.Raised e) →
  let r := Step2.main_async render_model_form back_button run agent w in
  r.2 = Failed e ∧
  calls r.1 = calls w ++
    [(name agent, Step2.prompt_of (State.log State.CHAT_AGENT_NAME (session w)))] ∧
  forms_shown (page r.1) = forms_shown (page w) ∧
  downloads_offered (page r.1) = downloads_offered (page w).
Proof.
  intros Hne Hrun r. subst r.
  destruct (step2_nonempty render_model_form back_button run agent w Hne)
    as (w1 & Hlog & Hcalls & Hforms & Hdown & ->).
  pose proof (process_chat_history_calls run agent
                (State.log State.CHAT_AGENT_NAME (session w)) w1) as Hc.
  pose proof (process_chat_history_ending run agent
                (State.log State.CHAT_AGENT_NAME (session w)) w1) as He.
  pose proof (process_chat_history_world run agent
                (State.log State.CHAT_AGENT_NAME (session w)) w1) as Hw.
  destruct (Step2.process_chat_history run agent
              (State.log State.CHAT_AGENT_NAME (session w)) w1) as [w2 out].
  simpl in *. rewrite Hrun in He, Hw. simpl in *. subst out.
  simpl. rewrite Hc, Hcalls. repeat split; try done; rewrite Hw.
  - by rewrite (proj1 (await_run_forms _ _ _)).
  - by rewrite (proj2 (await_run_forms _ _ _)).
Qed.

Lemma step2_failure_propagates_witness :
  (Step2.main_async id false
     (Step2.structured_run
        (fun _ => ([], Py.Returned {[ "title" := Config.VInt 3 ]})))
     Fixture.uschi (Fixture.with_chat_log Fixture.fixed_log)).2
  = Failed "ValidationError".
Proof.
  apply (step2_failure_propagates id false
           (Step2.structured_run
              (fun _ => ([], Py.Returned {[ "title" := Config.VInt 3 ]})))
           Fixture.uschi (Fixture.with_chat_log Fixture.fixed_log) []
           "ValidationError").
  - vm_compute. discriminate.
  - vm_compute. reflexivity.
Defined.

(** ** More on the transcript *)

Lemma join_cons sep p q rest :
  Py.join sep (p :: q :: rest) = p +:+ sep +:+ Py.join sep (q :: rest).
Proof. done. Qed.

Lemma join_app sep (l1 l2 : list string) :
  l1 ≠ [] → l2 ≠ [] →
  Py.join sep (l1 ++ l2) = Py.join sep l1 +:+ sep +:+ Py.join sep l2.
Proof.
  intros H1 H2. induction l1 as [|p l1 IH]; [done|].
  destruct l1 as [|q l1].
  - destruct l2 as [|r l2]; [done|]. done.
  - change ((p :: q :: l1) ++ l2) with (p :: q :: (l1 ++ l2)).
    rewrite !join_cons. change (q :: l1 ++ l2) with ((q :: l1) ++ l2).
    rewrite IH by done. by rewrite !string_app_assoc.
Qed.

(** X15.  The transcript of two logs put one after the other is the two
    transcripts separated by a blank line, provided neither log is empty:
    rendering does not depend on how the history was accumulated. *)
Theorem chat_text_app (l1 l2 : list ChatMessage) :
  l1 ≠ [] → l2 ≠ [] →
  Step2.chat_text (l1 ++ l2) =
  Step2.chat_text l1 +:+ (Py.nl +:+ Py.nl) +:+ Step2.chat_text l2.
Proof.
  intros H1 H2. unfold Step2.chat_text. rewrite map_app.
  apply join_app; by destruct l1, l2.
Qed.

Lemma chat_text_app_witness :
  Step2.chat_text ([Fixture.m_login] ++ [Fixture.m_priority; Fixture.m_friday]) =
  Step2.chat_text [Fixture.m_login] +:+ (Py.nl +:+ Py.nl) +:+
  Step2.chat_text [Fixture.m_priority; Fixture.m_friday].
Proof. apply chat_text_app; discriminate. Defined.

(** X16.  The transcript does not keep messages apart: one message whose
    content goes on with a blank line and a role line renders exactly as
    two messages, so the extractor receives the same prompt for both
    histories. *)
Theorem chat_text_ambiguous id1 id2 id3 (r r' : role) (c c' : string) :
  let forged :=
    [mkChatMessage id1
       (c +:+ Py.nl +:+ Py.nl +:+ Py.upper (role_str r') +:+ ": " +:+ c') r] in
  let honest := [mkChatMessage id2 c r; mkChatMessage id3 c' r'] in
  Step2.chat_text forged = Step2.chat_text honest ∧
  Step2.prompt_of forged = Step2.prompt_of honest.
Proof.
  intros forged honest.
  assert (Step2.chat_text forged = Step2.chat_text honest) as H.
  { unfold forged, honest, Step2.chat_text, Step2.format_message. simpl.
    by rewrite !string_app_assoc. }
  split; [done|]. unfold Step2.prompt_of. by rewrite H.
Qed.

(** ** The message view *)

Section ChatViewFacts.

Variable format_cost : Z → string.
Variable format_tokens : nat → string.
Variable format_time : Z → string.

Local Abbreviation metadata := (ChatView.metadata format_cost format_tokens format_time).
Local Abbreviation render_message_content :=
  (ChatView.render_message_content format_cost format_tokens format_time).
Local Abbreviation chatmessage_view :=
  (ChatView.chatmessage_view format_cost format_tokens format_time).

Implicit Types (msg : ChatMessage) (w : world).

Lemma bubbles_app p q : bubbles (p ++ q) = bubbles p ++ bubbles q.
Proof. apply omap_app. Qed.

Lemma bubbles_tool_calls ts : bubbles (map StToolCall ts) = [].
Proof. by induction ts. Qed.

(** A message is complete when its cost record, if any, has a total. *)
Lemma metadata_complete msg :
  (∀ ci, cost_info msg = Some ci → is_Some (token_usage ci !! "total")) →
  ∃ md, metadata msg = Py.Returned md ∧
        length md =
          (if ChatView.truthy_str (model msg) then 1 else 0) +
          (match cost_info msg with Some _ => 2 | None => 0 end) +
          (if ChatView.truthy_num (response_time msg) then 1 else 0).
Proof.
  intros Hok. unfold ChatView.metadata.
  destruct (cost_info msg) as [ci|] eqn:Hci.
  - destruct (Hok ci eq_refl) as [n ->]. eexists. split; [done|].
    rewrite !length_app. simpl.
    destruct (model msg) as [[|a m]|], (response_time msg) as [z|]; simpl;
      try destruct (negb (z =? 0)%Z); simpl; lia.
  - eexists. split; [done|]. rewrite !length_app.
    destruct (model msg) as [[|a m]|], (response_time msg) as [z|]; simpl;
      try destruct (negb (z =? 0)%Z); simpl; lia.
Qed.

Lemma metadata_incomplete msg ci :
  cost_info msg = Some ci → token_usage ci !! "total" = None →
  metadata msg = Py.Raised "KeyError: 'total'".
Proof. intros Hci Ht. unfold ChatView.metadata. by rewrite Hci, Ht. Qed.

Lemma render_message_content_page msg w :
  ∃ footer,
    page (render_message_content msg w).1 =
      page w ++ StMarkdown (content msg) :: map StToolCall (tool_calls msg)
             ++ footer ∧
    match metadata msg with
    | Py.Returned [] => footer = []
    | Py.Returned md => footer = [StMarkdown "---"; StMarkdown (Py.join " | " md)]
    | _ => footer = []
    end ∧
    (render_message_content msg w).2 =
      match metadata msg with
      | Py.Returned _ => Py.Returned tt
      | Py.Raised e => Py.Raised e
      | Py.Cancelled => Py.Cancelled
      end.
Proof.
  unfold ChatView.render_message_content.
  destruct (fold_show_tool_calls (tool_calls msg) (show (StMarkdown (content msg)) w))
    as (_ & _ & Hp).
  destruct (metadata msg) as [[|x md]|e|]; simpl; rewrite ?Hp; simpl;
    eexists; (split; [|split; [reflexivity|reflexivity]]);
    rewrite <- ?app_assoc; simpl; rewrite ?app_nil_r; done.
Qed.

Lemma render_message_content_bubbles msg w :
  bubbles (page (render_message_content msg w).1) = bubbles (page w).
Proof.
  destruct (render_message_content_page msg w) as (footer & -> & Hf & _).
  rewrite bubbles_app. simpl. rewrite bubbles_app, bubbles_tool_calls. simpl.
  destruct (metadata msg) as [[|x md]|e|]; subst footer; simpl;
    by rewrite app_nil_r.
Qed.

End ChatViewFacts.

(** X17.  [chatmessage_view] opens one bubble per message, in order; the
    bubble is the user's for a user message and the assistant's for every
    other role, system messages included.  This holds whenever each cost
    record in the list has a total. *)
Theorem chatmessage_view_bubbles format_cost format_tokens format_time
    (messages : list ChatMessage) (w : world) :
  Forall (fun msg => ∀ ci, cost_info msg = Some ci →
                           is_Some (token_usage ci !! "total")) messages →
  let r := ChatView.chatmessage_view format_cost format_tokens format_time
             messages w in
  r.2 = Py.Returned tt ∧
  bubbles (page r.1) =
    bubbles (page w) ++
    map (fun msg => if decide (msg_role msg = user) then "user" else "assistant")
        messages.
Proof.
  intros Hok. revert w. induction Hok as [|msg messages Hmsg Hok IH]; intros w.
  - simpl. by rewrite app_nil_r.
  - simpl.
    pose proof (render_message_content_bubbles format_cost format_tokens
                  format_time msg
                  (show (StChatMessage
                           (if decide (msg_role msg = user)
                            then "user" else "assistant")) w)) as Hb.
    destruct (render_message_content_page format_cost format_tokens format_time
                msg (show (StChatMessage
                             (if decide (msg_role msg = user)
                              then "user" else "assistant")) w))
      as (footer & _ & _ & Hout).
    destruct (metadata_complete format_cost format_tokens format_time msg Hmsg)
      as (md & Hmd & _).
    rewrite Hmd in Hout.
    destruct (ChatView.render_message_content _ _ _ msg _) as [w' out].
    simpl in *. subst out.
    destruct (IH w') as [-> ->]. split; [done|].
    rewrite Hb, bubbles_app. simpl. by rewrite <- app_assoc.
Qed.

Lemma chatmessage_view_bubbles_witness :
  bubbles
    (page (ChatView.chatmessage_view (fun _ => "0.0000") (fun _ => "0")
             (fun _ => "0.00")
             [Fixture.m_login; mkChatMessage "s1" "be brief" system]
             Fixture.w0).1) =
  bubbles (page Fixture.w0) ++ ["user"; "assistant"].
Proof.
  apply (chatmessage_view_bubbles (fun _ => "0.0000") (fun _ => "0")
           (fun _ => "0.00")
           [Fixture.m_login; mkChatMessage "s1" "be brief" system] Fixture.w0).
  repeat constructor; intros ci Hci; discriminate Hci.
Defined.

(** X18.  A message whose cost record lacks the total makes
    [chatmessage_view] fail with [KeyError] while its footer is built: the
    bubbles up to and including that message have been opened, the
    messages after it are not shown. *)
Theorem chatmessage_view_stops_at_missing_total format_cost format_tokens
    format_time (before after : list ChatMessage) (msg : ChatMessage)
    (ci : CostInfo) (w : world) :
  Forall (fun m => ∀ ci, cost_info m = Some ci →
                         is_Some (token_usage ci !! "total")) before →
  cost_info msg = Some ci → token_usage ci !! "total" = None →
  let r := ChatView.chatmessage_view format_cost format_tokens format_time
             (before ++ msg :: after) w in
  r.2 = Py.Raised "KeyError: 'total'" ∧
  bubbles (page r.1) =
    bubbles (page w) ++
    map (fun m => if decide (msg_role m = user) then "user" else "assistant")
        (before ++ [msg]).
Proof.
  intros Hok Hci Htot. revert w.
  induction Hok as [|m before Hm Hok IH]; intros w.
  - simpl.
    pose proof (render_message_content_bubbles format_cost format_tokens
                  format_time msg
                  (show (StChatMessage
                           (if decide (msg_role msg = user)
                            then "user" else "assistant")) w)) as Hb.
    destruct (render_message_content_page format_cost format_tokens format_time
                msg (show (StChatMessage
                             (if decide (msg_role msg = user)
                              then "user" else "assistant")) w))
      as (footer & _ & _ & Hout).
    rewrite (metadata_incomplete _ _ _ msg ci Hci Htot) in Hout.
    destruct (ChatView.render_message_content _ _ _ msg _) as [w' out].
    simpl in *. subst out. simpl. split; [done|]. rewrite Hb. apply bubbles_app.
  - simpl.
    pose proof (render_message_content_bubbles format_cost format_tokens
                  format_time m
                  (show (StChatMessage
                           (if decide (msg_role m = user)
                            then "user" else "assistant")) w)) as Hb.
    destruct (render_message_content_page format_cost format_tokens format_time
                m (show (StChatMessage
                           (if decide (msg_role m = user)
                            then "user" else "assistant")) w))
      as (footer & _ & _ & Hout).
    destruct (metadata_complete format_cost format_tokens format_time m Hm)
      as (md & Hmd & _).
    rewrite Hmd in Hout.
    destruct (ChatView.render_message_content _ _ _ m _) as [w' out].
    simpl in *. subst out.
    destruct (IH w') as [-> ->]. split; [done|].
    rewrite Hb, bubbles_app. simpl. by rewrite <- app_assoc.
Qed.

Lemma chatmessage_view_stops_at_missing_total_witness :
  (ChatView.chatmessage_view (fun _ => "0.0000") (fun _ => "0") (fun _ => "0.00")
     ([Fixture.m_login] ++
      {| content := "Hello"; msg_role := assistant; tool_calls := [];
         model := None;
         cost_info := Some {| total_cost := 0; token_usage := ∅ |};
         response_time := None; message_id := "m9" |} :: [Fixture.m_friday])
     Fixture.w0).2 = Py.Raised "KeyError: 'total'".
Proof.
  apply (chatmessage_view_stops_at_missing_total (fun _ => "0.0000")
           (fun _ => "0") (fun _ => "0.00") [Fixture.m_login]
           [Fixture.m_friday] _ {| total_cost := 0; token_usage := ∅ |}
           Fixture.w0).
  - repeat constructor; intros ci Hci; discriminate Hci.
  - reflexivity.
  - reflexivity.
Defined.



(** ** The model selector *)

Section ModelSelectorFacts.

Import ModelSelector.

Implicit Types (models : list ModelInfo) (m : ModelInfo) (xs : list string).

Lemma sorted_set_elem x xs : x ∈ sorted_set xs ↔ x ∈ xs.
Proof.
  unfold sorted_set. rewrite merge_sort_Permutation. apply elem_of_remove_dups.
Qed.

Lemma sorted_set_NoDup xs : NoDup (sorted_set xs).
Proof.
  unfold sorted_set. rewrite merge_sort_Permutation. apply NoDup_remove_dups.
Qed.

Lemma index_Some x xs i : index x xs = Some i → xs !! i = Some x.
Proof.
  revert i. induction xs as [|y xs IH]; intros i; simpl; [done|].
  destruct (decide (y = x)) as [->|Hne].
  - by intros [= <-].
  - destruct (index x xs) as [j|]; [|done]. intros [= <-]. by apply IH.
Qed.

Lemma index_elem x xs : x ∈ xs → is_Some (index x xs).
Proof.
  induction xs as [|y xs IH]; intros Hin; [by apply elem_of_nil in Hin|].
  simpl. destruct (decide (y = x)); [done|].
  apply elem_of_cons in Hin as [->|Hin]; [done|].
  destruct (IH Hin) as [j ->]. done.
Qed.

Lemma selectbox_elem xs idx picked v :
  selectbox xs idx picked = Some v → v ∈ xs.
Proof.
  unfold selectbox. destruct picked as [p|].
  - destruct (decide (p ∈ xs)); [by intros [= <-]|].
    intros H. by apply list_elem_of_lookup_2 in H.
  - intros H. by apply list_elem_of_lookup_2 in H.
Qed.

Lemma selectbox_is_Some xs idx picked :
  idx < length xs → is_Some (selectbox xs idx picked).
Proof.
  intros Hlt. unfold selectbox.
  destruct picked as [p|]; [destruct (decide (p ∈ xs)); [done|]|];
    by apply lookup_lt_is_Some.
Qed.

Lemma selectbox_picked xs idx v : v ∈ xs → selectbox xs idx (Some v) = Some v.
Proof. intros Hin. unfold selectbox. by rewrite decide_True. Qed.

(** The default index is always in range when there is an option. *)
Lemma default_index_lt (o : option nat) xs x :
  xs ≠ [] → (∀ i, o = Some i → xs !! i = Some x) → default 0 o < length xs.
Proof.
  intros Hne Ho. destruct o as [i|]; simpl.
  - by apply (lookup_lt_Some xs i x), Ho.
  - destruct xs; [done|]. simpl. lia.
Qed.

Lemma first_where_Some p models m :
  first_where p models = Some m → m ∈ models ∧ p m = true.
Proof.
  induction models as [|m' models IH]; simpl; [done|].
  destruct (p m') eqn:E.
  - intros [= <-]. split; [apply list_elem_of_here|done].
  - intros H. destruct (IH H) as [H1 H2]. split; [by apply list_elem_of_further|done].
Qed.

Lemma first_where_is_Some p models m :
  m ∈ models → p m = true → is_Some (first_where p models).
Proof.
  induction models as [|m' models IH]; intros Hin Hp;
    [by apply elem_of_nil in Hin|].
  simpl. destruct (p m') eqn:E; [done|].
  apply elem_of_cons in Hin as [->|Hin]; [congruence|]. by apply IH.
Qed.

Lemma first_where_filter (P : ModelInfo → Prop) `{∀ m, Decision (P m)} p models :
  first_where p (filter P models) =
  first_where (fun m => bool_decide (P m) && p m) models.
Proof.
  induction models as [|m models IH]; [done|].
  rewrite filter_cons. simpl. destruct (decide (P m)) as [HP|HP].
  - rewrite (bool_decide_eq_true_2 _ HP). simpl. destruct (p m); [done|apply IH].
  - rewrite (bool_decide_eq_false_2 _ HP). simpl. apply IH.
Qed.

(** The steps of [model_selector] once the provider is selected. *)
Lemma model_selected models (p : string) (cm : option ModelInfo)
    (picked_model : option string) :
  p ∈ map provider models →
  let provider_models := filter (fun m => Some (provider m) = Some p) models in
  let model_names := map name provider_models in
  let idx := match cm with
             | Some c => if decide (Some (provider c) = Some p)
                         then default 0 (index (name c) model_names) else 0
             | None => 0
             end in
  ∃ n m, selectbox model_names idx picked_model = Some n ∧
         first_where (fun m => bool_decide (Some (name m) = Some n))
           provider_models = Some m ∧
         m ∈ models ∧ provider m = p ∧ name m = n.
Proof.
  intros Hp provider_models model_names idx.
  apply list_elem_of_fmap in Hp as (m0 & -> & Hm0).
  assert (m0 ∈ provider_models) as Hin.
  { apply list_elem_of_filter. by split. }
  assert (model_names ≠ []) as Hne.
  { unfold model_names. destruct provider_models; [by apply elem_of_nil in Hin|done]. }
  assert (idx < length model_names) as Hidx.
  { subst idx. destruct cm as [c|]; [destruct (decide _)|].
    - apply (default_index_lt _ _ (name c) Hne). intros i. apply index_Some.
    - destruct model_names; [done|simpl; lia].
    - destruct model_names; [done|simpl; lia]. }
  destruct (selectbox_is_Some model_names idx picked_model Hidx) as [n Hn].
  pose proof (selectbox_elem _ _ _ _ Hn) as Hnin.
  apply list_elem_of_fmap in Hnin as (m1 & -> & Hm1).
  destruct (first_where_is_Some
              (fun m => bool_decide (Some (name m) = Some (name m1)))
              provider_models m1 Hm1) as [m Hm].
  { by apply bool_decide_eq_true_2. }
  exists (name m1), m. split; [done|]. split; [done|].
  apply first_where_Some in Hm as [Hmin Hmn].
  apply bool_decide_eq_true_1 in Hmn. injection Hmn as Hmn.
  apply list_elem_of_filter in Hmin as [Hprov Hmin]. injection Hprov as Hprov.
  done.
Qed.

End ModelSelectorFacts.

Section ModelSelectorSteps.

Import ModelSelector ModelSelectorSteps.

Implicit Types (models : list ModelInfo) (m : ModelInfo).

Lemma model_selector_steps models cid pp pm :
  model_selector models cid pp pm =
  match provider_step models cid pp with
  | Py.Returned sp => model_step models cid sp pm
  | _ => IndexError
  end.
Proof. reflexivity. Qed.

Lemma available_nonempty models :
  models ≠ [] → sorted_set (map provider models) ≠ [].
Proof.
  intros Hne Hnil. destruct models as [|m models]; [done|].
  assert (provider m ∈ sorted_set (map provider (m :: models))) as Hin.
  { apply sorted_set_elem. apply list_elem_of_here. }
  rewrite Hnil in Hin. by apply elem_of_nil in Hin.
Qed.

Lemma provider_step_Returned models cid pp :
  models ≠ [] →
  ∃ p, provider_step models cid pp = Py.Returned (Some p) ∧
       p ∈ map provider models.
Proof.
  intros Hne. pose proof (available_nonempty models Hne) as Hav.
  unfold provider_step.
  destruct (1 <? length (sorted_set (map provider models)))%nat eqn:E.
  - match goal with
    | |- context [selectbox ?xs ?idx pp] =>
        destruct (selectbox_is_Some xs idx pp) as [p Hp]
    end.
    { destruct (provider <$> current_model models cid) as [q|]; simpl.
      - apply (default_index_lt _ _ q Hav). intros i. apply index_Some.
      - apply Nat.ltb_lt in E. lia. }
    exists p. rewrite Hp. split; [done|].
    apply selectbox_elem in Hp. by apply (proj1 (sorted_set_elem _ _)) in Hp.
  - destruct (sorted_set (map provider models)) as [|p rest] eqn:Eav; [done|].
    exists p. split; [done|]. apply sorted_set_elem. rewrite Eav.
    apply list_elem_of_here.
Qed.

Lemma provider_step_empty cid pp : provider_step [] cid pp = Py.Raised "IndexError".
Proof. reflexivity. Qed.

Lemma model_step_Selected models cid p pm :
  p ∈ map provider models →
  ∃ n m, selectbox
           (map name (filter (fun m => Some (provider m) = Some p) models))
           match current_model models cid with
           | Some cm =>
               if decide (Some (provider cm) = Some p)
               then default 0
                      (index (name cm)
                         (map name
                            (filter (fun m => Some (provider m) = Some p) models)))
               else 0
           | None => 0
           end pm = Some n ∧
         m ∈ models ∧ provider m = p ∧ name m = n ∧
         first_where (fun m => bool_decide (provider m = p ∧ name m = n)) models
           = Some m ∧
         model_step models cid (Some p) pm =
           Selected (Some m)
             (if decide (Some (pydantic_ai_id m) = cid)
              then None else Some (pydantic_ai_id m))
             [StMarkdown (details m)].
Proof.
  intros Hp.
  destruct (model_selected models p (current_model models cid) pm Hp)
    as (n & m & Hn & Hm & Hin & Hprov & Hname).
  exists n, m. split; [exact Hn|]. split; [done|]. split; [done|]. split; [done|].
  split.
  - rewrite first_where_filter in Hm. rewrite <- Hm.
    clear. induction models as [|x models IH]; [done|]. simpl. rewrite IH.
    destruct (decide (provider x = p)) as [Hx|Hx], (decide (name x = n)) as [Hy|Hy].
    + rewrite !bool_decide_eq_true_2; [done|congruence|congruence|done].
    + rewrite (bool_decide_eq_false_2 (provider x = p ∧ name x = n)) by tauto.
      rewrite (bool_decide_eq_false_2 (Some (name x) = Some n)) by congruence.
      by rewrite andb_false_r.
    + rewrite (bool_decide_eq_false_2 (provider x = p ∧ name x = n)) by tauto.
      by rewrite (bool_decide_eq_false_2 (Some (provider x) = Some p)) by congruence.
    + rewrite (bool_decide_eq_false_2 (provider x = p ∧ name x = n)) by tauto.
      by rewrite (bool_decide_eq_false_2 (Some (provider x) = Some p)) by congruence.
  - unfold model_step. cbv zeta. rewrite Hn, Hm. done.
Qed.

End ModelSelectorSteps.

Section ModelSelectorTheorems.

Import ModelSelector ModelSelectorSteps.

Implicit Types (models : list ModelInfo) (m : ModelInfo).

Lemma two_elements_length (xs : list string) x y :
  x ∈ xs → y ∈ xs → x ≠ y → 1 < length xs.
Proof.
  intros Hx Hy Hne. destruct xs as [|a [|b xs]]; simpl; [| |lia].
  - by apply elem_of_nil in Hx.
  - apply list_elem_of_singleton in Hx, Hy. congruence.
Qed.

Lemma current_model_found models id cm :
  id ≠ EmptyString → cm ∈ models → pydantic_ai_id cm = id →
  ∃ cm0, current_model models (Some id) = Some cm0 ∧
         cm0 ∈ models ∧ pydantic_ai_id cm0 = id.
Proof.
  intros Hid Hin Hcm. destruct id as [|c id]; [done|]. simpl.
  destruct (first_where_is_Some
              (fun m => bool_decide (pydantic_ai_id m = String c id)) models cm Hin)
    as [cm0 H0]; [by apply bool_decide_eq_true_2|].
  exists cm0. split; [done|]. apply first_where_Some in H0 as [H1 H2].
  split; [done|]. by apply bool_decide_eq_true_1 in H2.
Qed.

(** X20.  [model_selector] fails with [IndexError] exactly when the list
    of models is empty. *)
Theorem model_selector_index_error models cid pp pm :
  model_selector models cid pp pm = IndexError ↔ models = [].
Proof.
  split.
  - intros H. destruct models as [|m0 models]; [done|]. exfalso.
    destruct (provider_step_Returned (m0 :: models) cid pp) as (p & Hp & Hin);
      [done|].
    destruct (model_step_Selected (m0 :: models) cid p pm Hin)
      as (n & m & _ & _ & _ & _ & _ & Hsel).
    rewrite model_selector_steps, Hp, Hsel in H. discriminate.
  - intros ->. reflexivity.
Qed.

(** X21.  On a list of models that is not empty [model_selector] always
    returns a model, never [None]: one of the list, whose details it
    shows; and it calls [set_model], with the id of that model, exactly
    when the id differs from the agent's current one. *)
Theorem model_selector_returns_listed_model models cid pp pm :
  models ≠ [] →
  ∃ m, m ∈ models ∧
       model_selector models cid pp pm =
         Selected (Some m)
           (if decide (Some (pydantic_ai_id m) = cid)
            then None else Some (pydantic_ai_id m))
           [StMarkdown (details m)].
Proof.
  intros Hne.
  destruct (provider_step_Returned models cid pp Hne) as (p & Hp & Hin).
  destruct (model_step_Selected models cid p pm Hin)
    as (n & m & _ & Hm & _ & _ & _ & Hsel).
  exists m. split; [done|]. by rewrite model_selector_steps, Hp.
Qed.

Lemma model_selector_returns_listed_model_witness :
  ∃ m, m ∈ [ {| provider := "openrouter"; name := "gpt-4o-mini";
                pydantic_ai_id := "openrouter:openai/gpt-4o-mini";
                details := "GPT-4o mini" |} ] ∧
       model_selector
         [ {| provider := "openrouter"; name := "gpt-4o-mini";
              pydantic_ai_id := "openrouter:openai/gpt-4o-mini";
              details := "GPT-4o mini" |} ]
         None None None =
         Selected (Some m)
           (if decide (Some (pydantic_ai_id m) = None)
            then None else Some (pydantic_ai_id m))
           [StMarkdown (details m)].
Proof. apply model_selector_returns_listed_model. discriminate. Defined.

(** X22.  When the user has selected nothing, the agent's current model is
    in the list, and a provider and a name identify a model id, then
    [model_selector] returns a model with the current id and does not
    call [set_model]: showing the selector leaves the agent's model
    alone. *)
Theorem model_selector_keeps_current_model models id cm :
  id ≠ EmptyString → cm ∈ models → pydantic_ai_id cm = id →
  (∀ m m', m ∈ models → m' ∈ models →
           provider m = provider m' → name m = name m' →
           pydantic_ai_id m = pydantic_ai_id m') →
  ∃ m, m ∈ models ∧ pydantic_ai_id m = id ∧
       model_selector models (Some id) None None =
         Selected (Some m) None [StMarkdown (details m)].
Proof.
  intros Hid Hin Hcm Huniq.
  destruct (current_model_found models id cm Hid Hin Hcm)
    as (cm0 & Hcur & Hin0 & Hid0).
  assert (provider cm0 ∈ map provider models) as Hprov.
  { apply list_elem_of_fmap. by exists cm0. }
  assert (provider_step models (Some id) None = Py.Returned (Some (provider cm0)))
    as Hstep.
  { unfold provider_step. rewrite Hcur. simpl.
    pose proof (proj2 (sorted_set_elem (provider cm0) (map provider models)) Hprov)
      as Hav.
    destruct (1 <? length (sorted_set (map provider models)))%nat eqn:E.
    - destruct (index_elem _ _ Hav) as [i Hi]. rewrite Hi. simpl.
      by rewrite (index_Some _ _ _ Hi).
    - apply Nat.ltb_ge in E.
      destruct (sorted_set (map provider models)) as [|p [|q rest]];
        [by apply elem_of_nil in Hav| |simpl in E; lia].
      apply list_elem_of_singleton in Hav. by rewrite Hav. }
  destruct (model_step_Selected models (Some id) (provider cm0) None Hprov)
    as (n & m & Hn & Hm & Hmp & Hmn & _ & Hsel).
  rewrite Hcur in Hn. rewrite decide_True in Hn by done.
  assert (name cm0 ∈
          map name (filter (fun m => Some (provider m) = Some (provider cm0)) models))
    as Hname.
  { apply list_elem_of_fmap. exists cm0. split; [done|].
    apply list_elem_of_filter. by split. }
  destruct (index_elem _ _ Hname) as [j Hj]. rewrite Hj in Hn. simpl in Hn.
  rewrite (index_Some _ _ _ Hj) in Hn. injection Hn as <-.
  assert (pydantic_ai_id m = id) as Hmid.
  { rewrite <- Hid0. by apply Huniq. }
  exists m. split; [done|]. split; [done|].
  rewrite model_selector_steps, Hstep, Hsel.
  by rewrite decide_True by congruence.
Qed.

Lemma model_selector_keeps_current_model_witness :
  ∃ m, m ∈ [ {| provider := "openrouter"; name := "gpt-4o-mini";
                pydantic_ai_id := "openrouter:openai/gpt-4o-mini";
                details := "GPT-4o mini" |};
             {| provider := "openai"; name := "gpt-4o";
                pydantic_ai_id := "openai:gpt-4o"; details := "GPT-4o" |} ] ∧
       pydantic_ai_id m = "openai:gpt-4o" ∧
       model_selector
         [ {| provider := "openrouter"; name := "gpt-4o-mini";
              pydantic_ai_id := "openrouter:openai/gpt-4o-mini";
              details := "GPT-4o mini" |};
           {| provider := "openai"; name := "gpt-4o";
              pydantic_ai_id := "openai:gpt-4o"; details := "GPT-4o" |} ]
         (Some "openai:gpt-4o") None None =
         Selected (Some m) None [StMarkdown (details m)].
Proof.
  apply (model_selector_keeps_current_model _ "openai:gpt-4o"
           {| provider := "openai"; name := "gpt-4o";
              pydantic_ai_id := "openai:gpt-4o"; details := "GPT-4o" |}).
  - discriminate.
  - apply list_elem_of_further, list_elem_of_here.
  - reflexivity.
  - intros m m' Hm Hm' Hp Hn.
    apply elem_of_cons in Hm as [->|Hm]; apply elem_of_cons in Hm' as [->|Hm'];
      try apply list_elem_of_singleton in Hm;
      try apply list_elem_of_singleton in Hm'; subst; try done;
      discriminate Hp.
Defined.

(** X23.  When the list holds models of more than one provider and the
    user has selected a provider and a model name that occur together in
    the list, [model_selector] returns the first model of the list with
    that provider and that name. *)
Theorem model_selector_honours_selection models cid p n m0 m1 m2 :
  m1 ∈ models → m2 ∈ models → provider m1 ≠ provider m2 →
  m0 ∈ models → provider m0 = p → name m0 = n →
  ∃ m, first_where (fun m => bool_decide (provider m = p ∧ name m = n)) models
         = Some m ∧
       model_selector models cid (Some p) (Some n) =
         Selected (Some m)
           (if decide (Some (pydantic_ai_id m) = cid)
            then None else Some (pydantic_ai_id m))
           [StMarkdown (details m)].
Proof.
  intros H1 H2 Hne H0 Hp Hn.
  assert (p ∈ map provider models) as Hprov.
  { apply list_elem_of_fmap. by exists m0. }
  assert (provider_step models cid (Some p) = Py.Returned (Some p)) as Hstep.
  { unfold provider_step.
    assert (1 < length (sorted_set (map provider models))) as Hlen.
    { apply (two_elements_length _ (provider m1) (provider m2)); [| |done];
        apply sorted_set_elem, list_elem_of_fmap; eauto. }
    apply Nat.ltb_lt in Hlen. rewrite Hlen.
    rewrite selectbox_picked; [done|]. by apply sorted_set_elem. }
  destruct (model_step_Selected models cid p (Some n) Hprov)
    as (n' & m & Hsel & _ & _ & _ & Hfirst & Hres).
  rewrite selectbox_picked in Hsel.
  - injection Hsel as <-. exists m. split; [done|].
    by rewrite model_selector_steps, Hstep.
  - apply list_elem_of_fmap. exists m0. split; [done|].
    apply list_elem_of_filter. split; [by rewrite Hp|done].
Qed.

Lemma model_selector_honours_selection_witness :
  ∃ m, first_where
         (fun m => bool_decide (provider m = "openai" ∧ name m = "gpt-4o"))
         [ {| provider := "openrouter"; name := "gpt-4o-mini";
              pydantic_ai_id := "openrouter:openai/gpt-4o-mini";
              details := "GPT-4o mini" |};
           {| provider := "openai"; name := "gpt-4o";
              pydantic_ai_id := "openai:gpt-4o"; details := "GPT-4o" |} ]
         = Some m ∧
       model_selector
         [ {| provider := "openrouter"; name := "gpt-4o-mini";
              pydantic_ai_id := "openrouter:openai/gpt-4o-mini";
              details := "GPT-4o mini" |};
           {| provider := "openai"; name := "gpt-4o";
              pydantic_ai_id := "openai:gpt-4o"; details := "GPT-4o" |} ]
         None (Some "openai") (Some "gpt-4o") =
         Selected (Some m)
           (if decide (Some (pydantic_ai_id m) = None)
            then None else Some (pydantic_ai_id m))
           [StMarkdown (details m)].
Proof.
  apply (model_selector_honours_selection _ None "openai" "gpt-4o"
           {| provider := "openai"; name := "gpt-4o";
              pydantic_ai_id := "openai:gpt-4o"; details := "GPT-4o" |}
           {| provider := "openrouter"; name := "gpt-4o-mini";
              pydantic_ai_id := "openrouter:openai/gpt-4o-mini";
              details := "GPT-4o mini" |}
           {| provider := "openai"; name := "gpt-4o";
              pydantic_ai_id := "openai:gpt-4o"; details := "GPT-4o" |});
    try reflexivity; try discriminate.
  - apply list_elem_of_here.
  - apply list_elem_of_further, list_elem_of_here.
  - apply list_elem_of_further, list_elem_of_here.
Defined.

End ModelSelectorTheorems.

(** ** Initialising the session *)

Section StateInitFacts.

Import StateInit.

Lemma blank_form_fold (fields : list (string * option string))
    (d : gmap string string) (k : string) :
  fold_left (fun d f => <[f.1 := EmptyString]> d) fields d !! k =
  if decide (k ∈ fields.*1) then Some EmptyString else d !! k.
Proof.
  revert d. induction fields as [|f fields IH]; intros d; simpl; [done|].
  rewrite IH. destruct (decide (k ∈ fields.*1)) as [Hin|Hin].
  - rewrite decide_True; [done|]. by apply list_elem_of_further.
  - destruct (decide (k = f.1)) as [->|Hne].
    + rewrite lookup_insert_eq, decide_True; [done|]. apply list_elem_of_here.
    + rewrite lookup_insert_ne by done. rewrite decide_False; [done|].
      intros [?|?]%elem_of_cons; done.
Qed.

(** X24.  [State.initialize] only fills in what is missing: whatever the
    session already holds (agents, form data, the message logs, the tool
    lists) is kept, so the chat history survives every rerun of a page,
    and initialising twice is the same as initialising once. *)
Theorem initialize_keeps_session (s : session_state) :
  initialize (initialize s) = initialize s ∧
  (∀ a, agents s = Some a → agents (initialize s) = Some a) ∧
  (∀ f, form_data s = Some f → form_data (initialize s) = Some f) ∧
  (∀ d, messages s = Some d → messages (initialize s) = Some d) ∧
  (∀ t, agent_tools s = Some t → agent_tools (initialize s) = Some t).
Proof.
  destruct s as [a f d t c]. unfold initialize. simpl.
  split; [by destruct a, f, d, t|].
  repeat split; by intros ? [= ->].
Qed.

Lemma initialize_keeps_session_witness :
  messages
    (initialize
       {| agents := None; form_data := None;
          messages := Some {[ "Dieter" := Fixture.fixed_log ]};
          agent_tools := None; completed_form := None |})
  = Some {[ "Dieter" := Fixture.fixed_log ]}.
Proof.
  destruct (initialize_keeps_session
              {| agents := None; form_data := None;
                 messages := Some {[ "Dieter" := Fixture.fixed_log ]};
                 agent_tools := None; completed_form := None |})
    as (_ & _ & _ & H & _).
  apply H. reflexivity.
Defined.

(** X25.  After [State.initialize] every key the pages read is there: the
    form data and the message logs always, and, when the session had no
    agents, a structured form agent and a plain chat agent under their
    two names; fresh form data maps exactly the fields of [FormData] to
    the empty string.  [completed_form] is never provided: reading it
    raises as before. *)
Theorem initialize_provides_session (s : session_state) :
  is_Some (ready (initialize s)) ∧
  (agents s = None →
   ∃ fa ca, form_agent (initialize s) = Py.Returned fa ∧
            chat_agent (initialize s) = Py.Returned ca ∧
            agent_name fa = State.FORM_AGENT_NAME ∧ structured fa = true ∧
            agent_name ca = State.CHAT_AGENT_NAME ∧ structured ca = false) ∧
  (form_data s = None →
   ∃ f, form_data (initialize s) = Some f ∧
        ∀ k, f !! k = if decide (k ∈ Config.model_fields.*1)
                      then Some EmptyString else None) ∧
  get_completed_form (initialize s) = get_completed_form s.
Proof.
  destruct s as [a f d t c]. split; [by destruct f, d|].
  split; [|split; [|done]].
  - simpl. intros ->. eexists _, _. repeat split; reflexivity.
  - simpl. intros ->. eexists. split; [done|]. intros k.
    unfold blank_form. by rewrite blank_form_fold, lookup_empty.
Qed.

Lemma initialize_provides_session_witness :
  ∃ fa ca,
    form_agent (initialize
                  {| agents := None; form_data := None; messages := None;
                     agent_tools := None; completed_form := None |})
      = Py.Returned fa ∧
    chat_agent (initialize
                  {| agents := None; form_data := None; messages := None;
                     agent_tools := None; completed_form := None |})
      = Py.Returned ca ∧
    agent_name fa = State.FORM_AGENT_NAME ∧ structured fa = true ∧
    agent_name ca = State.CHAT_AGENT_NAME ∧ structured ca = false.
Proof.
  destruct (initialize_provides_session
              {| agents := None; form_data := None; messages := None;
                 agent_tools := None; completed_form := None |})
    as (_ & H & _).
  apply H. reflexivity.
Defined.

End StateInitFacts.

(** ** The SharePoint helper *)

Section SharepointFacts.

Import Sharepoint.

Lemma chars_length (s : string) : length (chars s) = String.length s.
Proof. induction s as [|c s IH]; [done|]. simpl. by rewrite IH. Qed.

Lemma chars_single (s : string) : Forall (fun c => String.length c = 1) (chars s).
Proof. induction s as [|c s IH]; constructor; done. Qed.

Lemma lookups_length (scopes : list string) :
  length (sh ← scopes; chars sh) = sum_list (map String.length scopes).
Proof.
  induction scopes as [|sh scopes IH]; [done|].
  rewrite bind_cons, length_app, chars_length, IH. done.
Qed.

Lemma lookups_single (scopes : list string) :
  Forall (fun c => String.length c = 1) (sh ← scopes; chars sh).
Proof.
  induction scopes as [|sh scopes IH]; [constructor|].
  rewrite bind_cons. apply Forall_app. split; [apply chars_single|done].
Qed.

(** X26.  The constructor of [Office365] iterates over the characters of
    each scope helper name: the scopes passed to [authenticate] are one
    lookup per character, never a lookup of a whole name of two or more
    characters; [authenticate] is consulted only for an account that is
    not yet authenticated, and its refusal is the only way to
    [Authentication Failed]. *)
Theorem init_looks_up_characters get_scopes_for account id secret
    (scopes : list string) library path :
  let lookups := sh ← scopes; chars sh in
  let r := init get_scopes_for account id secret scopes library path in
  Forall (fun c => String.length c = 1) lookups ∧
  length lookups = sum_list (map String.length scopes) ∧
  (r = Py.Raised "Authentication Failed" ↔
   is_authenticated account = false ∧
   authenticate account (map get_scopes_for lookups) = false) ∧
  (∀ o, r = Py.Returned o →
        scope_lookups o = lookups ∧
        requested o = if is_authenticated account then None
                      else Some (map get_scopes_for lookups)).
Proof.
  intros lookups r. split; [apply lookups_single|].
  split; [apply lookups_length|]. subst r. unfold init. fold lookups.
  destruct (is_authenticated account) eqn:Hauth; simpl.
  - split.
    + split; [|intros [? _]; done].
      destruct (site_found account); simpl; [|discriminate].
      destruct (get_drive account library); discriminate.
    + intros o. destruct (site_found account); simpl; [|discriminate].
      destruct (get_drive account library); try discriminate.
      by intros [= <-].
  - destruct (authenticate account (map get_scopes_for lookups)) eqn:Hok; simpl.
    + split.
      * split; [|intros [_ ?]; done].
        destruct (site_found account); simpl; [|discriminate].
        destruct (get_drive account library); discriminate.
      * intros o. destruct (site_found account); simpl; [|discriminate].
        destruct (get_drive account library); try discriminate.
        by intros [= <-].
    + split; [done|]. intros o. discriminate.
Qed.

Lemma init_looks_up_characters_witness :
  init (fun s => [s])
    {| is_authenticated := false; authenticate := fun _ => false;
       site_found := true; get_drive := fun _ => DriveItem |}
    "id" "secret" ["sharepoint"] "library" None
  = Py.Raised "Authentication Failed".
Proof.
  destruct (init_looks_up_characters (fun s => [s])
              {| is_authenticated := false; authenticate := fun _ => false;
                 site_found := true; get_drive := fun _ => DriveItem |}
              "id" "secret" ["sharepoint"] "library" None)
    as (_ & _ & H & _).
  apply H. split; reflexivity.
Defined.

End SharepointFacts.
